(** * niels_TG_bot: the TradingView webhook relay of [src/index.js]

    A shallow embedding of the Express webhook handler, the Telegraf
    admin commands and the admin gate, followed by the properties of the
    specification that were checked against them.

    Conventions of the model.
    - A JavaScript string is a [string]; one [ascii] stands for one
      character, so [substring] and [split] count the elements of the
      string (they agree with JavaScript on ASCII text).  [toUpperCase]
      and [trim] are the ASCII ones.
    - A JavaScript number is a binary64 [float]; what the engine prints
      for it is a field of [JsEngine], as are [JSON.parse] and
      [JSON.stringify], which belong to the engine and not to the
      repository.  Error messages are V8's.
    - A handler is a computation over a [World]: the configuration file,
      the messages handed to the Telegram transport, the replies, the
      HTTP responses and the console.  Effects made before an exception
      stay.  A handler runs to completion without another handler running
      in between.
    - [config.json], when it can be read, holds a boolean [enabled] and
      an array of strings [channels].
    - body-parser hands the route a [req.body] that is a string (text
      parser) or a decoded JSON value (JSON parser, the empty object when
      no parser ran).
    - The console keeps one line per call, the first argument and the
      message; the banner lines that print the clock, the content type
      and the error object are left out. *)

From Stdlib Require Import String Ascii List ZArith Floats Lia Bool Arith.
From Stdlib Require Import DecimalString.
Import ListNotations.
Local Open Scope list_scope.
Local Open Scope string_scope.

(** * JavaScript strings *)

Module JsString.

Definition nl : string := String (ascii_of_nat 10) EmptyString.

(** [s.includes(t)], tested at every position of [s]. *)
Fixpoint includes (s t : string) : bool :=
  if prefix t s then true
  else match s with
       | EmptyString => false
       | String _ s' => includes s' t
       end.

Definition upper_char (c : ascii) : ascii :=
  let n := nat_of_ascii c in
  if (Nat.leb 97 n && Nat.leb n 122)%bool then ascii_of_nat (n - 32) else c.

Fixpoint toUpperCase (s : string) : string :=
  match s with
  | EmptyString => EmptyString
  | String c s' => String (upper_char c) (toUpperCase s')
  end.

(** [s.split(sep)] for a one-character separator: the pieces between
    the separators, [['']] for the empty string. *)
Fixpoint split_acc (sep : ascii) (acc s : string) : list string :=
  match s with
  | EmptyString => [acc]
  | String c s' =>
      if Ascii.eqb c sep then acc :: split_acc sep EmptyString s'
      else split_acc sep (acc ++ String c EmptyString) s'
  end.

Definition split (sep : ascii) (s : string) : list string :=
  split_acc sep EmptyString s.

Definition is_space (c : ascii) : bool :=
  let n := nat_of_ascii c in
  (Nat.leb 9 n && Nat.leb n 13 || Nat.eqb n 32)%bool.

Fixpoint trimStart (s : string) : string :=
  match s with
  | String c s' => if is_space c then trimStart s' else s
  | EmptyString => EmptyString
  end.

Fixpoint rev_string (acc s : string) : string :=
  match s with
  | EmptyString => acc
  | String c s' => rev_string (String c acc) s'
  end.

Definition trim (s : string) : string :=
  rev_string EmptyString
    (trimStart (rev_string EmptyString (trimStart s))).

(** [xs.includes(x)] on an array of strings. *)
Definition array_includes (xs : list string) (x : string) : bool :=
  existsb (String.eqb x) xs.

Definition of_nat (n : nat) : string :=
  NilZero.string_of_uint (Nat.to_uint n).

Definition of_Z (z : Z) : string :=
  NilZero.string_of_int (Z.to_int z).

End JsString.

Import JsString.

(** * JavaScript values that JSON can denote *)

#[warnings="-register-all"] Inductive JsVal : Type :=
| JNull
| JBool (b : bool)
| JNum (x : float)
| JStr (s : string)
| JArr (items : list JsVal)
| JObj (fields : list (string * JsVal)).

Inductive Exn : Type :=
| TypeError (message : string)
| SyntaxError (message : string)
| SystemError (message : string).

Definition message (e : Exn) : string :=
match e with
| TypeError m | SyntaxError m | SystemError m => m
end.

(** What the engine provides. *)
Class JsEngine : Type := {
JSON_parse : string -> Exn + JsVal;
JSON_stringify : JsVal -> string;
Number_toString : float -> string
}.

Module Js.

(** ToBoolean; [None] is [undefined]. *)
Definition truthy (v : JsVal) : bool :=
  match v with
  | JNull => false
  | JBool b => b
  | JNum x => negb (PrimFloat.is_zero x || PrimFloat.is_nan x)
  | JStr s => negb (String.eqb s "")
  | JArr _ | JObj _ => true
  end.

Definition truthy_opt (o : option JsVal) : bool :=
  match o with
  | Some v => truthy v
  | None => false
  end.

Fixpoint assoc (k : string) (fields : list (string * JsVal)) : option JsVal :=
  match fields with
  | [] => None
  | (k', v) :: rest => if String.eqb k k' then Some v else assoc k rest
  end.

(** [data.k] for a key that no prototype defines (every key the
    handler reads is one): the own property of an object, [undefined]
    on anything else.  On [null] the access would throw; the handler
    reads properties only after [Object.keys] has accepted the value. *)
Definition prop (data : JsVal) (k : string) : option JsVal :=
  match data with
  | JObj fields => assoc k fields
  | _ => None
  end.

(** [a || b] where [b] is already evaluated (no effect is skipped). *)
Definition or_else (a : option JsVal) (b : JsVal) : JsVal :=
  match a with
  | Some v => if truthy v then v else b
  | None => b
  end.

Definition indices (n : nat) : list string := map of_nat (seq 0 n).

(** [Object.keys(v)]; [None] is the TypeError on [null]. *)
Definition Object_keys (v : JsVal) : option (list string) :=
  match v with
  | JNull => None
  | JBool _ | JNum _ => Some []
  | JStr s => Some (indices (String.length s))
  | JArr items => Some (indices (List.length items))
  | JObj fields => Some (map fst fields)
  end.

Definition has_own (k : string) (fields : list (string * JsVal)) : bool :=
  match assoc k fields with Some _ => true | None => false end.

Section ToString.
Context {engine : JsEngine}.

(** ToString of a template substitution.  An object prints as
    [[object Object]] through [Object.prototype.toString], unless an
    own [toString] property (never callable in a JSON value) hides
    it: then the conversion throws.  An array joins its elements
    with commas, [null] printing as nothing.  [None] is that
    TypeError. *)
Fixpoint ToString (v : JsVal) : option string :=
  match v with
  | JNull => Some "null"
  | JBool true => Some "true"
  | JBool false => Some "false"
  | JNum x => Some (Number_toString x)
  | JStr s => Some s
  | JArr items =>
      (fix join (l : list JsVal) : option string :=
         match l with
         | [] => Some ""
         | x :: rest =>
             match (match x with JNull => Some "" | _ => ToString x end) with
             | None => None
             | Some sx =>
                 match rest with
                 | [] => Some sx
                 | _ :: _ =>
                     match join rest with
                     | None => None
                     | Some sr => Some (sx ++ "," ++ sr)
                     end
                 end
             end
         end) items
  | JObj fields =>
      if has_own "toString" fields then None else Some "[object Object]"
  end.
End ToString.

(** [v !== s] for a string literal [s]. *)
Definition strict_neq (v : JsVal) (s : string) : bool :=
  match v with
  | JStr t => negb (String.eqb t s)
  | _ => true
  end.

End Js.

Import Js.

(** * The world the handlers act on *)

(** [config.json], decoded. *)
Record Config : Type := {
  enabled : bool;
  channels : list string
}.

(** [ctx.from.id] and [ctx.message.text] of an incoming command. *)
Record Ctx : Type := {
  from_id : Z;
  text : string
}.

Record Reply : Type := {
  reply_ctx : Ctx;
  reply_markdown : bool;
  reply_text : string
}.

(** [res.status(status).json(json)]. *)
Record Response : Type := {
  status : nat;
  json : JsVal
}.

(** [req.rawBody] (set by the JSON parser's [verify] hook, [None] when it
    did not run) and [req.body]. *)
Record Request : Type := {
  rawBody : option string;
  body : JsVal
}.

Record World : Type := {
  config_file : option Config;      (* [None]: missing or not valid JSON *)
  writable : bool;                  (* can [config.json] be written *)
  io_error : string;                (* message of the error [fs] raises *)
  telegram : nat -> option string;  (* error of the n-th send, if it fails *)
  outbox : list (string * string);  (* [sendMessage(channel, text)] calls *)
  replies : list Reply;
  responses : list Response;
  console : list string
}.

Definition set_config_file (c : option Config) (w : World) : World :=
  {| config_file := c; writable := writable w; io_error := io_error w;
     telegram := telegram w; outbox := outbox w; replies := replies w;
     responses := responses w; console := console w |}.

Definition set_outbox (o : list (string * string)) (w : World) : World :=
  {| config_file := config_file w; writable := writable w;
     io_error := io_error w; telegram := telegram w; outbox := o;
     replies := replies w; responses := responses w; console := console w |}.

Definition set_replies (r : list Reply) (w : World) : World :=
  {| config_file := config_file w; writable := writable w;
     io_error := io_error w; telegram := telegram w; outbox := outbox w;
     replies := r; responses := responses w; console := console w |}.

Definition set_responses (r : list Response) (w : World) : World :=
  {| config_file := config_file w; writable := writable w;
     io_error := io_error w; telegram := telegram w; outbox := outbox w;
     replies := replies w; responses := r; console := console w |}.

Definition set_console (c : list string) (w : World) : World :=
  {| config_file := config_file w; writable := writable w;
     io_error := io_error w; telegram := telegram w; outbox := outbox w;
     replies := replies w; responses := responses w; console := c |}.

(** * Computations: state that survives an exception *)

Definition M (A : Type) : Type := World -> (Exn + A) * World.

Definition ret {A} (a : A) : M A := fun w => (inr a, w).

Definition bind {A B} (m : M A) (k : A -> M B) : M B :=
  fun w =>
    match m w with
    | (inr a, w') => k a w'
    | (inl e, w') => (inl e, w')
    end.

(** [try { m } catch (e) { h(e) }]. *)
Definition try_catch {A} (m : M A) (h : Exn -> M A) : M A :=
  fun w =>
    match m w with
    | (inr a, w') => (inr a, w')
    | (inl e, w') => h e w'
    end.

Definition lift {A} (r : Exn + A) : M A := fun w => (r, w).

Declare Scope js_scope.
Delimit Scope js_scope with js.
Notation "x <- m ;; k" := (bind m (fun x => k))
  (at level 61, m at next level, right associativity) : js_scope.
Notation "m ;; k" := (bind m (fun _ => k))
  (at level 61, right associativity) : js_scope.
Local Open Scope js_scope.

(** [for (const x of xs) { await body(x) }]. *)
Fixpoint for_each {A} (xs : list A) (body : A -> M unit) : M unit :=
  match xs with
  | [] => ret tt
  | x :: rest => body x ;; for_each rest body
  end.

Definition console_log (line : string) : M unit :=
  fun w => (inr tt, set_console (console w ++ [line]) w).

Definition console_error : string -> M unit := console_log.

Definition getConfig : M Config :=
  fun w =>
    match config_file w with
    | Some c => (inr c, w)
    | None => (inl (SystemError (io_error w)), w)
    end.

Definition saveConfig (config : Config) : M unit :=
  fun w =>
    if writable w then (inr tt, set_config_file (Some config) w)
    else (inl (SystemError (io_error w)), w).

(** [bot.telegram.sendMessage(channelId, text, { parse_mode: 'Markdown' })],
    awaited: the attempt is recorded, and the promise rejects when the
    transport fails it. *)
Definition sendMessage (channelId text : string) : M unit :=
  fun w =>
    let w' := set_outbox (outbox w ++ [(channelId, text)]) w in
    match telegram w (List.length (outbox w)) with
    | None => (inr tt, w')
    | Some m => (inl (SystemError m), w')
    end.

Definition reply (ctx : Ctx) (t : string) : M unit :=
  fun w => (inr tt, set_replies (replies w ++ [Build_Reply ctx false t]) w).

Definition replyWithMarkdown (ctx : Ctx) (t : string) : M unit :=
  fun w => (inr tt, set_replies (replies w ++ [Build_Reply ctx true t]) w).

Definition respond (code : nat) (j : JsVal) : M unit :=
  fun w => (inr tt, set_responses (responses w ++ [Build_Response code j]) w).

(** * The bot *)

Section Bot.

Context {engine : JsEngine}.

(** [process.env.ADMIN_CHAT_IDS], [None] when unset. *)
Variable env_ADMIN_CHAT_IDS : option string.

Definition ADMIN_CHAT_IDS : list string :=
  map trim (split "," (match env_ADMIN_CHAT_IDS with
                       | Some s => s
                       | None => ""
                       end)).

(** ** Admin middleware *)

Definition isAdmin (ctx : Ctx) (next : M unit) : M unit :=
  let userId := of_Z (from_id ctx) in
  if array_includes ADMIN_CHAT_IDS userId then next
  else
    console_log ("Unauthorized access attempt by " ++ userId) ;;
    reply ctx "🚫 You are not authorized to use this command.".

(** ** Bot commands *)

Inductive Command : Type := On | Off | AddChannel | RemoveChannel | List.

Definition on_handler (ctx : Ctx) : M unit :=
  config <- getConfig ;;
  saveConfig {| enabled := true; channels := channels config |} ;;
  reply ctx "🟢 Bot is now ON. Signals will be forwarded.".

Definition off_handler (ctx : Ctx) : M unit :=
  config <- getConfig ;;
  saveConfig {| enabled := false; channels := channels config |} ;;
  reply ctx "🔴 Bot is now OFF. Signals are paused.".

Definition addchannel_handler (ctx : Ctx) : M unit :=
  let args := split " " (text ctx) in
  if Nat.ltb (List.length args) 2 then reply ctx "Usage: /addchannel <channel_id>"
  else
    let channelId := nth 1 args "" in
    config <- getConfig ;;
    if negb (array_includes (channels config) channelId) then
      saveConfig {| enabled := enabled config;
                    channels := channels config ++ [channelId] |} ;;
      reply ctx ("✅ Channel " ++ channelId ++ " added.")
    else reply ctx "ℹ️ Channel already in list.".

Definition removechannel_handler (ctx : Ctx) : M unit :=
  let args := split " " (text ctx) in
  if Nat.ltb (List.length args) 2 then reply ctx "Usage: /removechannel <channel_id>"
  else
    let channelId := nth 1 args "" in
    config <- getConfig ;;
    saveConfig {| enabled := enabled config;
                  channels := filter (fun id => negb (String.eqb id channelId))
                                     (channels config) |} ;;
    reply ctx ("❌ Channel " ++ channelId ++ " removed.").

Definition list_handler (ctx : Ctx) : M unit :=
  config <- getConfig ;;
  let status := if enabled config then "🟢 ON" else "🔴 OFF" in
  let msg := "📊 *Bot Status:* " ++ status ++ nl ++ nl ++ "*Channels:*" in
  let msg :=
    if Nat.eqb (List.length (channels config)) 0 then msg ++ nl ++ "None"
    else fold_left (fun m id => m ++ nl ++ "- `" ++ id ++ "`")
                   (channels config) msg in
  replyWithMarkdown ctx msg.

Definition handler (c : Command) : Ctx -> M unit :=
  match c with
  | On => on_handler
  | Off => off_handler
  | AddChannel => addchannel_handler
  | RemoveChannel => removechannel_handler
  | List => list_handler
  end.

(** [bot.command(name, isAdmin, handler)]: what runs when the command
    arrives. *)
Definition bot_command (c : Command) (ctx : Ctx) : M unit :=
  isAdmin ctx (handler c ctx).

(** ** Webhook endpoint *)

(** [req.rawBody || (typeof req.body === 'string' ? req.body
    : JSON.stringify(req.body))]. *)
Definition raw_body_of (req : Request) : string :=
  let fallback := match body req with
                  | JStr s => s
                  | v => JSON_stringify v
                  end in
  match rawBody req with
  | Some s => if String.eqb s "" then fallback else s
  | None => fallback
  end.

Definition rawMessage_of (raw : string) : string :=
  "📥 *WEBHOOK RECEIVED*" ++ nl ++ nl ++ "```" ++ nl
    ++ substring 0 800 raw ++ nl ++ "```".

(** Lines 146-159: the decoded payload and the [parseSuccess] flag. *)
Definition parse_body (req : Request) : M (JsVal * bool) :=
  match body req with
  | JStr s =>
      match JSON_parse s with
      | inr v => ret (v, true)
      | inl parseError =>
          console_error ("JSON parse failed: " ++ message parseError) ;;
          ret (JObj [], false)
      end
  | JArr _ as v | JObj _ as v => ret (v, true)
  | _ => ret (JObj [], false)
  end.

(** Lines 165-170. *)
Definition direction_of (data : JsVal) : Exn + string :=
  match prop data "direction" with
  | Some d =>
      if truthy d then
        match d with
        | JStr s =>
            inr (if includes (toUpperCase s) "BUY" then "Buy"
                 else if includes (toUpperCase s) "SELL" then "Sell"
                 else s)
        | _ => inl (TypeError "data.direction.toUpperCase is not a function")
        end
      else inr "Signal"
  | None => inr "Signal"
  end.

Definition ticker_of (data : JsVal) : JsVal :=
  or_else (prop data "ticker") (or_else (prop data "symbol") (JStr "Unknown")).

Definition entryPrice_of (data : JsVal) : JsVal :=
  or_else (prop data "entry_price")
    (or_else (prop data "price") (or_else (prop data "close") (JStr "N/A"))).

Definition sl_of (data : JsVal) : JsVal :=
  or_else (prop data "sl") (or_else (prop data "stop_loss") (JStr "N/A")).

Definition tp1_of (data : JsVal) : JsVal :=
  or_else (prop data "tp1") (or_else (prop data "take_profit") (JStr "N/A")).

Definition contracts_of (data : JsVal) : JsVal :=
  or_else (prop data "contracts") (JStr "N/A").

Definition strategy_of (data : JsVal) : JsVal :=
  or_else (prop data "strategy") (JStr "N/A").

Definition timeframe_of (data : JsVal) : JsVal :=
  or_else (prop data "timeframe") (JStr "N/A").

(** [`${v}`]. *)
Definition show (v : JsVal) : Exn + string :=
  match ToString v with
  | Some s => inr s
  | None => inl (TypeError "Cannot convert object to primitive value")
  end.

Definition ebind {A B} (r : Exn + A) (k : A -> Exn + B) : Exn + B :=
  match r with
  | inr a => k a
  | inl e => inl e
  end.

(** [if (v !== 'N/A' && v !== '') message += before + `${v}` + after]. *)
Definition optional_line (v : JsVal) (before after msg : string)
  : Exn + string :=
  if strict_neq v "N/A" && strict_neq v "" then
    ebind (show v) (fun s => inr (msg ++ before ++ s ++ after))
  else inr msg.

(** Lines 181-187: the formatted message. *)
Definition formatted_message (direction : string) (data : JsVal)
  : Exn + string :=
  let message := "🚨 *FORMATTED SIGNAL*" ++ nl in
  ebind (show (ticker_of data)) (fun ticker =>
  ebind (show (entryPrice_of data)) (fun entryPrice =>
  let message := message ++ "📈 *" ++ toUpperCase direction ++ " " ++ ticker
                         ++ " @ " ++ entryPrice ++ "*" ++ nl in
  ebind (optional_line (strategy_of data) "📊 *Strategy:* `" ("`" ++ nl) message)
    (fun message =>
  ebind (optional_line (timeframe_of data) "⏰ *Timeframe:* `" ("`" ++ nl) message)
    (fun message =>
  ebind (optional_line (contracts_of data) "📦 *Contracts:* `" ("`" ++ nl) message)
    (fun message =>
  ebind (optional_line (sl_of data) "🛑 *SL:* `" ("`" ++ nl) message)
    (fun message =>
  optional_line (tp1_of data) "🎯 *TP1:* `" "`" message)))))).

(** Line 180. *)
Definition meaningful (data : JsVal) : bool :=
  truthy_opt (prop data "ticker") || truthy_opt (prop data "direction")
  || truthy_opt (prop data "symbol").

(** Lines 162-194: [None] when the formatted step is skipped. *)
Definition format_signal (data : JsVal) : Exn + option string :=
  ebind (direction_of data) (fun direction =>
  if meaningful data then
    ebind (formatted_message direction data) (fun m => inr (Some m))
  else inr None).

Definition send_raw (channelId rawMessage : string) : M unit :=
  try_catch (sendMessage channelId rawMessage)
    (fun err => console_error ("Error sending raw to " ++ channelId ++ ": "
                               ++ message err)).

Definition send_formatted (channelId msg : string) : M unit :=
  try_catch (sendMessage channelId msg)
    (fun err => console_error ("Error sending formatted to " ++ channelId
                               ++ ": " ++ message err)).

(** Lines 162-194 as a whole: the guard
    [parseSuccess && Object.keys(data).length > 0], then the formatting. *)
Definition format_step (parsed : JsVal * bool) : Exn + option string :=
  let data := fst parsed in
  let parseSuccess := snd parsed in
  if parseSuccess then
    match Object_keys data with
    | None => inl (TypeError "Cannot convert undefined or null to object")
    | Some keys =>
        if Nat.ltb 0 (List.length keys) then format_signal data else inr None
    end
  else inr None.

Definition disabled_response : Response :=
  {| status := 200;
     json := JObj [("success", JBool true);
                   ("message", JStr "Bot is disabled")] |}.

Definition sent_response (n : nat) : Response :=
  {| status := 200;
     json := JObj [("success", JBool true);
                   ("message", JStr ("Signal sent to " ++ of_nat n
                                     ++ " channels"))] |}.

Definition error_response : Response :=
  {| status := 500;
     json := JObj [("success", JBool false);
                   ("error", JStr "Internal Error")] |}.

Definition webhook_try (req : Request) : M unit :=
  config <- getConfig ;;
  let rawBody := raw_body_of req in
  console_log "=== INCOMING WEBHOOK ===" ;;
  console_log ("Raw Body: " ++ rawBody) ;;
  console_log "========================" ;;
  if negb (enabled config) then
    console_log "Bot is OFF. Skipping signal." ;;
    respond (status disabled_response) (json disabled_response)
  else
    let rawMessage := rawMessage_of rawBody in
    for_each (channels config) (fun channelId => send_raw channelId rawMessage) ;;
    parsed <- parse_body req ;;
    formatted <- lift (format_step parsed) ;;
    match formatted with
    | Some msg =>
        for_each (channels config)
                 (fun channelId => send_formatted channelId msg)
    | None => ret tt
    end ;;
    let sent := sent_response (List.length (channels config)) in
    respond (status sent) (json sent).

Definition errorMsg_of (error : Exn) : string :=
  "❌ *WEBHOOK ERROR*" ++ nl ++ nl ++ message error.

Definition webhook_catch (error : Exn) : M unit :=
  console_error ("Webhook Error: " ++ message error) ;;
  try_catch
    (config <- getConfig ;;
     let errorMsg := errorMsg_of error in
     for_each (channels config)
       (fun channelId => try_catch (sendMessage channelId errorMsg)
                                   (fun _ => ret tt)))
    (fun _ => ret tt) ;;
  respond (status error_response) (json error_response).

(** [app.post('/webhook', ...)]. *)
Definition webhook (req : Request) : M unit :=
  try_catch (webhook_try req) webhook_catch.

End Bot.

(** * Running the handlers *)

(** The payload and the [parseSuccess] flag that [parse_body] returns;
    what it adds to the world is a console line. *)
Definition parsed_of {engine : JsEngine} (req : Request) : JsVal * bool :=
  match body req with
  | JStr s =>
      match JSON_parse s with
      | inr v => (v, true)
      | inl _ => (JObj [], false)
      end
  | JArr _ as v | JObj _ as v => (v, true)
  | _ => (JObj [], false)
  end.

Definition to_all (chs : list string) (msg : string) : list (string * string) :=
  map (fun ch => (ch, msg)) chs.

(** The response and the sends that follow the raw-debug ones, read off
    the result of the formatting step. *)
Definition after_raw (chs : list string) (r : Exn + option string)
  : Response * list (string * string) :=
  match r with
  | inr None => (sent_response (List.length chs), [])
  | inr (Some msg) => (sent_response (List.length chs), to_all chs msg)
  | inl e => (error_response, to_all chs (errorMsg_of e))
  end.

(** A raw-debug notification is recognised by its heading. *)
Definition is_raw_debug (msg : string) : bool :=
  prefix "📥 *WEBHOOK RECEIVED*" msg.

(** A formatted signal is recognised by its heading too. *)
Definition is_formatted (msg : string) : bool :=
  prefix "🚨 *FORMATTED SIGNAL*" msg.

Definition authorized (env : option string) (ctx : Ctx) : bool :=
  array_includes (ADMIN_CHAT_IDS env) (of_Z (from_id ctx)).

(** Every value the message prints converts to text. *)
Definition printable {engine : JsEngine} (data : JsVal) : bool :=
  forallb (fun v => match ToString v with Some _ => true | None => false end)
    [ticker_of data; entryPrice_of data; strategy_of data; timeframe_of data;
     contracts_of data; sl_of data; tp1_of data].

(** [data.direction] is absent, falsy or a string. *)
Definition direction_usable (data : JsVal) : bool :=
  match prop data "direction" with
  | Some (JStr _) | None => true
  | Some d => negb (truthy d)
  end.

(** C4 as the specification words it: presence of a field decides. *)
Definition C4_as_stated : Prop :=
  forall (engine : JsEngine) (req : Request) (w : World) (cfg : Config)
         (fields : list (string * JsVal)),
    config_file w = Some cfg -> enabled cfg = true ->
    parsed_of req = (JObj fields, true) -> fields <> [] ->
    let raws := to_all (channels cfg) (rawMessage_of (raw_body_of req)) in
    let sent := outbox (snd (webhook req w)) in
    ((has_own "ticker" fields || has_own "direction" fields
      || has_own "symbol" fields)%bool = true ->
     exists msg, is_formatted msg = true
                 /\ sent = (outbox w ++ raws ++ to_all (channels cfg) msg)%list)
    /\ ((has_own "ticker" fields || has_own "direction" fields
         || has_own "symbol" fields)%bool = false ->
        sent = (outbox w ++ raws)%list).

(** C10 as the specification words it: always 200. *)
Definition C10_as_stated : Prop :=
  forall (engine : JsEngine) (req : Request) (w : World) (cfg : Config),
    config_file w = Some cfg -> enabled cfg = true -> channels cfg = [] ->
    outbox (snd (webhook req w)) = outbox w
    /\ responses (snd (webhook req w))
       = (responses w
          ++ [{| status := 200;
                 json := JObj [("success", JBool true);
                               ("message", JStr "Signal sent to 0 channels")] |}])%list.

(** The resolution the specification words, [a ?? b ?? default]: the
    first key that is present (and not [null]) gives the value, an empty
    string included. *)
Fixpoint first_present (keys : list string) (default : string) (data : JsVal)
  : JsVal :=
  match keys with
  | [] => JStr default
  | k :: rest =>
      match prop data k with
      | None | Some JNull => first_present rest default data
      | Some v => v
      end
  end.

(** C5 as the specification words it. *)
Definition C5_as_stated : Prop :=
  forall data : JsVal,
    ticker_of data = first_present ["ticker"; "symbol"] "Unknown" data
    /\ entryPrice_of data
       = first_present ["entry_price"; "price"; "close"] "N/A" data
    /\ sl_of data = first_present ["sl"; "stop_loss"] "N/A" data
    /\ tp1_of data = first_present ["tp1"; "take_profit"] "N/A" data.

(** What the code does: the first key holding a truthy value. *)
Fixpoint first_truthy (keys : list string) (default : string) (data : JsVal)
  : JsVal :=
  match keys with
  | [] => JStr default
  | k :: rest => or_else (prop data k) (first_truthy rest default data)
  end.

Definition falsy_at (data : JsVal) (k : string) : Prop :=
  truthy_opt (prop data k) = false.

(** [f] resolves a field over [keys] by 'first truthy wins': the value
    under a key is returned when it is truthy and every earlier key is
    absent or falsy, whatever the later keys hold; [default] is returned
    when no key holds a truthy value. *)
Definition resolves (f : JsVal -> JsVal) (keys : list string)
  (default : string) : Prop :=
  forall data : JsVal,
    (forall pre k post v,
        keys = (pre ++ k :: post)%list -> Forall (falsy_at data) pre ->
        prop data k = Some v -> truthy v = true -> f data = v)
    /\ (Forall (falsy_at data) keys -> f data = JStr default).

(** The payload of the scenario:
    [{ticker: 'BTCUSD', direction: 'strategy.entrylong', sl: '60000'}]. *)
Definition entrylong_payload : JsVal :=
  JObj [("ticker", JStr "BTCUSD"); ("direction", JStr "strategy.entrylong");
        ("sl", JStr "60000")].

(** C6 as the specification words it: the literal direction shows in the
    message. *)
Definition C6_as_stated : Prop :=
  forall engine : JsEngine,
  exists msg,
    format_signal entrylong_payload = inr (Some msg)
    /\ includes msg "Buy BTCUSD" = false
    /\ includes msg "strategy.entrylong" = true
    /\ includes msg "60000" = true
    /\ includes msg "TP1" = false.

(** C8 as the specification words it: an authorized sender always gets
    a reply. *)
Definition C8_as_stated : Prop :=
  forall (env : option string) (c : Command) (ctx : Ctx) (w : World),
    authorized env ctx = true ->
    exists new,
      replies (snd (bot_command env c ctx w)) = (replies w ++ new)%list
      /\ new <> [].

Definition changes_store (c : Command) : bool :=
  match c with
  | List => false
  | _ => true
  end.

(** An engine to run the model on.  It decodes no text and prints
    nothing of a value; the sample runs use decoded bodies whose fields
    are strings. *)
Definition sample_engine : JsEngine :=
  {| JSON_parse := fun _ => inl (SyntaxError "Unexpected token");
     JSON_stringify := fun _ => "{}";
     Number_toString := fun _ => "0" |}.

Definition sample_world (cfg : option Config) : World :=
  {| config_file := cfg; writable := true; io_error := "ENOENT";
     telegram := fun _ => None; outbox := []; replies := [];
     responses := []; console := [] |}.

(** * The first version of the endpoint ([src/unnamed/part_000])

    The earlier [index.js]: the same commands, and a webhook that sends
    one message per channel, the signal or an 'incomplete alert' notice.
    Its [catch] only answers 500.  The sends are started in the order of
    the channel list ([map], then [Promise.all]).  The console line that
    pretty-prints the body is left out. *)

Section Legacy.

Context {engine : JsEngine}.

Definition legacy_entryPrice_of (data : JsVal) : JsVal :=
  or_else (prop data "entry_price") (or_else (prop data "price") (JStr "N/A")).

(** Lines 124-127. *)
Definition legacy_message (direction : string) (data : JsVal)
  : Exn + string :=
  let message := "🚨 *NEW SIGNAL*" ++ nl in
  ebind (show (ticker_of data)) (fun ticker =>
  ebind (show (legacy_entryPrice_of data)) (fun entryPrice =>
  let message := message ++ "📈 *" ++ toUpperCase direction ++ " " ++ ticker
                         ++ " @ " ++ entryPrice ++ "*" ++ nl in
  ebind (optional_line (sl_of data) "🛑 *SL:* `" ("` " ++ nl) message)
    (fun message =>
  optional_line (tp1_of data) "🎯 *TP1:* `" "`" message))).

(** Lines 129-131. *)
Definition legacy_incomplete (data : JsVal) : bool :=
  negb (truthy_opt (prop data "ticker"))
  && negb (truthy_opt (prop data "direction")).

Definition legacy_notice (data : JsVal) : string :=
  "⚠️ *Incomplete Alert Format*" ++ nl ++ "Raw: `" ++ JSON_stringify data ++ "`".

(** Lines 110-131: the one message of a request. *)
Definition legacy_compose (req : Request) : Exn + string :=
  let data := or_else (Some (body req)) (JObj []) in
  ebind (direction_of data) (fun direction =>
  ebind (legacy_message direction data) (fun message =>
  inr (if legacy_incomplete data then legacy_notice data else message))).

Definition legacy_send (channelId msg : string) : M unit :=
  try_catch (sendMessage channelId msg)
    (fun err => console_error ("Error sending to " ++ channelId ++ ": "
                               ++ message err)).

Definition legacy_webhook_try (req : Request) : M unit :=
  config <- getConfig ;;
  if negb (enabled config) then
    console_log "Bot is OFF. Skipping signal." ;;
    respond (status disabled_response) (json disabled_response)
  else
    console_log "--- Incoming Webhook ---" ;;
    msg <- lift (legacy_compose req) ;;
    for_each (channels config) (fun channelId => legacy_send channelId msg) ;;
    let sent := sent_response (List.length (channels config)) in
    respond (status sent) (json sent).

Definition legacy_webhook_catch (error : Exn) : M unit :=
  console_error ("Webhook Error: " ++ message error) ;;
  respond (status error_response) (json error_response).

Definition legacy_webhook (req : Request) : M unit :=
  try_catch (legacy_webhook_try req) legacy_webhook_catch.

End Legacy.

(** * Vocabulary of the further properties *)

Definition set_telegram (t : nat -> option string) (w : World) : World :=
  {| config_file := config_file w; writable := writable w;
     io_error := io_error w; telegram := t; outbox := outbox w;
     replies := replies w; responses := responses w; console := console w |}.

(** The stored channel list has no duplicate (vacuous while the store
    cannot be read). *)
Definition store_NoDup (w : World) : Prop :=
  match config_file w with
  | Some cfg => NoDup (channels cfg)
  | None => True
  end.

(** [args[1]] of a command text, when there is one. *)
Definition argument (ctx : Ctx) : option string :=
  nth_error (split " " (text ctx)) 1.

Definition all_strings (fields : list (string * JsVal)) : bool :=
  forallb (fun kv => match snd kv with JStr _ => true | _ => false end) fields.

(** The bullet lines of [/list]. *)
Fixpoint bullet_lines (ids : list string) : string :=
  match ids with
  | [] => ""
  | id :: rest => nl ++ "- `" ++ id ++ "`" ++ bullet_lines rest
  end.

(** An engine that decodes the JSON literals and nothing else. *)
Definition literal_engine : JsEngine :=
  {| JSON_parse := fun s =>
       if String.eqb s "null" then inr JNull
       else if String.eqb s "true" then inr (JBool true)
       else if String.eqb s "false" then inr (JBool false)
       else inl (SyntaxError "Unexpected token");
     JSON_stringify := fun _ => "{}";
     Number_toString := fun _ => "0" |}.

(** Every value the first version's message prints converts to text. *)
Definition legacy_printable {engine : JsEngine} (data : JsVal) : bool :=
  forallb (fun v => match ToString v with Some _ => true | None => false end)
    [ticker_of data; legacy_entryPrice_of data; sl_of data; tp1_of data].

(** * The string primitives on samples *)

Example split_keeps_empty_pieces :
  split " " "/addchannel  -1001" = ["/addchannel"; ""; "-1001"]
  /\ split " " "/addchannel" = ["/addchannel"]
  /\ split "," "" = [""].
Proof. repeat split. Qed.

Example admin_ids_are_trimmed :
  ADMIN_CHAT_IDS (Some " 12, 13 ,14") = ["12"; "13"; "14"]
  /\ ADMIN_CHAT_IDS None = [""].
Proof. split; reflexivity. Qed.

Example nobody_is_admin_of_an_empty_list :
  authorized None {| from_id := 0; text := "/on" |} = false.
Proof. reflexivity. Qed.

Example direction_is_matched_in_upper_case :
  direction_of (JObj [("direction", JStr "buy")]) = inr "Buy"
  /\ direction_of (JObj [("direction", JStr "strategy.sell_short")]) = inr "Sell"
  /\ direction_of (JObj [("direction", JStr "long")]) = inr "long"
  /\ direction_of (JObj [("direction", JStr "")]) = inr "Signal"
  /\ direction_of (JObj [("ticker", JStr "BTCUSD")]) = inr "Signal".
Proof. repeat split. Qed.

Example substring_keeps_a_short_body :
  substring 0 800 "not json" = "not json".
Proof. reflexivity. Qed.

Section Runs.

Context {engine : JsEngine}.

Lemma world_eta (w : World) :
  set_console (console w) w = w.
Proof. destruct w; reflexivity. Qed.

Lemma bind_ok {A B} (m : M A) (k : A -> M B) w a w' :
  m w = (inr a, w') -> bind m k w = k a w'.
Proof. unfold bind; intros ->; reflexivity. Qed.

Lemma try_ok {A} (m : M A) h w a w' :
  m w = (inr a, w') -> try_catch m h w = (inr a, w').
Proof. unfold try_catch; intros ->; reflexivity. Qed.

Lemma try_err {A} (m : M A) h w e w' :
  m w = (inl e, w') -> try_catch m h w = h e w'.
Proof. unfold try_catch; intros ->; reflexivity. Qed.

(** A send whose failure is only logged, or dropped, leaves one entry in
    the outbox and never throws. *)
Lemma guarded_send ch msg (h : Exn -> M unit) :
  (forall e w, exists c, h e w = (inr tt, set_console c w)) ->
  forall w, exists c,
    try_catch (sendMessage ch msg) h w
    = (inr tt, set_console c (set_outbox (outbox w ++ [(ch, msg)]) w)).
Proof.
  intros Hh w. unfold try_catch, sendMessage.
  destruct (telegram w (List.length (outbox w))) as [m|].
  - destruct (Hh (SystemError m) (set_outbox (outbox w ++ [(ch, msg)]) w))
      as [c Hc].
    exists c. exact Hc.
  - exists (console w). reflexivity.
Qed.

Lemma send_raw_run ch msg w :
  exists c, send_raw ch msg w
            = (inr tt, set_console c (set_outbox (outbox w ++ [(ch, msg)]) w)).
Proof.
  apply guarded_send. intros e w0. eexists. reflexivity.
Qed.

Lemma send_formatted_run ch msg w :
  exists c, send_formatted ch msg w
            = (inr tt, set_console c (set_outbox (outbox w ++ [(ch, msg)]) w)).
Proof.
  apply guarded_send. intros e w0. eexists. reflexivity.
Qed.

Lemma send_silent_run ch msg w :
  exists c, try_catch (sendMessage ch msg) (fun _ => ret tt) w
            = (inr tt, set_console c (set_outbox (outbox w ++ [(ch, msg)]) w)).
Proof.
  apply guarded_send. intros e w0. exists (console w0).
  unfold ret. now rewrite world_eta.
Qed.

(** The loop over the channels: one attempt per element, in order. *)
Lemma for_each_sends (body : string -> M unit) msg :
  (forall ch w, exists c,
      body ch w
      = (inr tt, set_console c (set_outbox (outbox w ++ [(ch, msg)]) w))) ->
  forall chs w, exists c,
    for_each chs body w
    = (inr tt, set_console c (set_outbox (outbox w ++ to_all chs msg) w)).
Proof.
  intros Hb chs. induction chs as [|ch chs IH]; intros w.
  - exists (console w). simpl. unfold ret. rewrite app_nil_r.
    destruct w; reflexivity.
  - destruct (Hb ch w) as [c Hc].
    destruct (IH (set_console c (set_outbox (outbox w ++ [(ch, msg)]) w)))
      as [c' Hc'].
    exists c'. simpl for_each. rewrite (bind_ok _ _ _ _ _ Hc), Hc'.
    simpl. now rewrite <- app_assoc.
Qed.

Lemma parse_body_run req w :
  exists c, parse_body req w = (inr (parsed_of req), set_console c w).
Proof.
  unfold parse_body, parsed_of.
  destruct (body req) as [| b | x | s | items | fields];
    try (exists (console w); unfold ret; now rewrite world_eta).
  destruct (JSON_parse s) as [e | v].
  - eexists. reflexivity.
  - exists (console w); unfold ret; now rewrite world_eta.
Qed.

Lemma getConfig_bind {B} (k : Config -> M B) w cfg :
  config_file w = Some cfg -> bind getConfig k w = k cfg w.
Proof. intros H. unfold bind, getConfig. now rewrite H. Qed.

Lemma console_log_bind {B} line (k : unit -> M B) w :
  bind (console_log line) k w = k tt (set_console (console w ++ [line]) w).
Proof. reflexivity. Qed.

Lemma lift_bind {A B} (r : Exn + A) (k : A -> M B) w :
  bind (lift r) k w = match r with
                      | inr a => k a w
                      | inl e => (inl e, w)
                      end.
Proof. unfold bind, lift. now destruct r. Qed.

(** The [catch] block: the error notice to every channel, then the 500. *)
Lemma webhook_catch_run e w cfg :
  config_file w = Some cfg ->
  exists c,
    webhook_catch e w
    = (inr tt,
       set_console c
         (set_responses (responses w ++ [error_response])
            (set_outbox (outbox w ++ to_all (channels cfg) (errorMsg_of e)) w))).
Proof.
  intros Hcfg. unfold webhook_catch, console_error.
  rewrite console_log_bind.
  set (w1 := set_console _ w).
  destruct (for_each_sends
              (fun ch => try_catch (sendMessage ch (errorMsg_of e))
                                   (fun _ => ret tt))
              (errorMsg_of e)
              (fun ch w' => send_silent_run ch (errorMsg_of e) w')
              (channels cfg) w1) as [c H].
  assert (Hcfg1 : config_file w1 = Some cfg) by exact Hcfg.
  erewrite bind_ok.
  2:{ erewrite try_ok; [reflexivity|].
      rewrite (getConfig_bind _ _ _ Hcfg1). exact H. }
  eexists. unfold respond. reflexivity.
Qed.

(** The [try] block when forwarding is on: the raw-debug sends, then what
    the formatting step decides. *)
Lemma webhook_try_enabled_run req w cfg :
  config_file w = Some cfg -> enabled cfg = true ->
  let raws := to_all (channels cfg) (rawMessage_of (raw_body_of req)) in
  exists c,
    webhook_try req w
    = match format_step (parsed_of req) with
      | inl e => (inl e, set_console c (set_outbox (outbox w ++ raws) w))
      | inr formatted =>
          (inr tt,
           set_console c
             (set_responses
                (responses w ++ [sent_response (List.length (channels cfg))])
                (set_outbox
                   (outbox w ++ raws
                      ++ match formatted with
                         | Some msg => to_all (channels cfg) msg
                         | None => []
                         end) w)))
      end.
Proof.
  intros Hcfg Hon raws. unfold webhook_try.
  rewrite (getConfig_bind _ _ _ Hcfg), !console_log_bind, Hon.
  cbn [negb].
  match goal with |- exists c, _ ?w0 = _ => set (w1 := w0) end.
  set (raw := rawMessage_of (raw_body_of req)) in *.
  destruct (for_each_sends (fun ch => send_raw ch raw) raw
              (fun ch w' => send_raw_run ch raw w') (channels cfg) w1)
    as [c1 H1].
  rewrite (bind_ok _ _ _ _ _ H1).
  set (w2 := set_console c1 _).
  destruct (parse_body_run req w2) as [c2 H2].
  rewrite (bind_ok _ _ _ _ _ H2), lift_bind.
  set (w3 := set_console c2 w2).
  destruct (format_step (parsed_of req)) as [e | [msg |]].
  - exists c2. reflexivity.
  - destruct (for_each_sends (fun ch => send_formatted ch msg) msg
                (fun ch w' => send_formatted_run ch msg w') (channels cfg) w3)
      as [c3 H3].
    rewrite (bind_ok _ _ _ _ _ H3).
    exists c3. unfold respond. simpl. fold raws.
    now rewrite <- app_assoc.
  - exists c2. unfold bind, ret, respond. simpl. fold raws.
    now rewrite app_nil_r.
Qed.

(** The whole handler when forwarding is on. *)
Lemma webhook_enabled_run req w cfg :
  config_file w = Some cfg -> enabled cfg = true ->
  let raw := rawMessage_of (raw_body_of req) in
  let out := after_raw (channels cfg) (format_step (parsed_of req)) in
  exists c,
    webhook req w
    = (inr tt,
       set_console c
         (set_responses (responses w ++ [fst out])
            (set_outbox (outbox w ++ to_all (channels cfg) raw ++ snd out) w))).
Proof.
  intros Hcfg Hon raw out.
  destruct (webhook_try_enabled_run req w cfg Hcfg Hon) as [c Htry].
  fold raw in Htry. subst out. unfold webhook.
  destruct (format_step (parsed_of req)) as [e | formatted].
  - rewrite (try_err _ _ _ _ _ Htry).
    set (w1 := set_console c _).
    assert (Hcfg1 : config_file w1 = Some cfg) by exact Hcfg.
    destruct (webhook_catch_run e w1 cfg Hcfg1) as [c' Hc].
    rewrite Hc. exists c'. simpl. now rewrite <- app_assoc.
  - rewrite (try_ok _ _ _ _ _ Htry). exists c.
    destruct formatted; reflexivity.
Qed.

End Runs.

(** * The webhook when forwarding is off, and the admin gate *)

Section Gate.

Context {engine : JsEngine}.

Lemma webhook_disabled_exact req w cfg :
  config_file w = Some cfg -> enabled cfg = false ->
  webhook req w
  = (inr tt,
     set_console
       (console w ++ ["=== INCOMING WEBHOOK ===";
                      "Raw Body: " ++ raw_body_of req;
                      "========================";
                      "Bot is OFF. Skipping signal."])
       (set_responses (responses w ++ [disabled_response]) w)).
Proof.
  intros Hcfg Hoff. unfold webhook.
  erewrite try_ok; [reflexivity|].
  unfold webhook_try. rewrite (getConfig_bind _ _ _ Hcfg).
  rewrite !console_log_bind, Hoff. cbn [negb].
  rewrite console_log_bind. unfold respond. simpl.
  now rewrite <- !app_assoc.
Qed.

(** C1.  With [enabled = false] in the stored configuration, a POST to
    [/webhook] hands nothing to the transport (no raw-debug and no
    formatted message), answers 200 with the body
    [{success: true, message: 'Bot is disabled'}], and leaves the
    configuration alone.  The switch is tested before the body is decoded
    or formatted: two requests with the same raw text, whatever their
    bodies, give the same run. *)
Theorem C1_disabled_webhook_skips (req : Request) (w : World) (cfg : Config) :
  config_file w = Some cfg ->
  enabled cfg = false ->
  let r := webhook req w in
  fst r = inr tt
  /\ outbox (snd r) = outbox w
  /\ responses (snd r)
     = (responses w
        ++ [{| status := 200;
               json := JObj [("success", JBool true);
                             ("message", JStr "Bot is disabled")] |}])%list
  /\ config_file (snd r) = config_file w
  /\ (forall req', raw_body_of req' = raw_body_of req ->
                   webhook req' w = webhook req w).
Proof.
  intros Hcfg Hoff r. subst r.
  rewrite (webhook_disabled_exact req w cfg Hcfg Hoff). simpl.
  repeat split.
  intros req' Hraw.
  rewrite (webhook_disabled_exact req' w cfg Hcfg Hoff). now rewrite Hraw.
Qed.

End Gate.

Lemma C1_disabled_webhook_skips_witness :
  let w := sample_world (Some {| enabled := false; channels := ["-1001"] |}) in
  let req := {| rawBody := None; body := JObj [("direction", JBool true)] |} in
  outbox (snd (webhook (engine := sample_engine) req w)) = []
  /\ map status (responses (snd (webhook (engine := sample_engine) req w)))
     = [200].
Proof.
  pose proof (C1_disabled_webhook_skips (engine := sample_engine)
                {| rawBody := None; body := JObj [("direction", JBool true)] |}
                (sample_world (Some {| enabled := false; channels := ["-1001"] |}))
                {| enabled := false; channels := ["-1001"] |}
                eq_refl eq_refl) as H.
  cbv zeta in H. destruct H as (_ & Hout & Hresp & _).
  split.
  - exact Hout.
  - rewrite Hresp. reflexivity.
Defined.

(** C2.  A sender whose identity is not on the allow-list, whichever of
    the five commands was sent: the run ends normally with the rejection
    as its only reply, the stored configuration ([enabled] and
    [channels]) is what it was, nothing is sent to a channel, and the
    outcome is the same whatever handler the gate wraps, so the handler
    did not run. *)
Theorem C2_unauthorized_sender_is_rejected
  (env : option string) (c : Command) (ctx : Ctx) (w : World) :
  authorized env ctx = false ->
  let r := bot_command env c ctx w in
  fst r = inr tt
  /\ config_file (snd r) = config_file w
  /\ replies (snd r)
     = (replies w
        ++ [{| reply_ctx := ctx; reply_markdown := false;
               reply_text := "🚫 You are not authorized to use this command." |}])%list
  /\ outbox (snd r) = outbox w
  /\ (forall next : M unit, isAdmin env ctx next w = r).
Proof.
  intros Hno r. subst r. unfold bot_command, isAdmin.
  unfold authorized in Hno. rewrite Hno. rewrite console_log_bind. unfold reply. simpl.
  repeat split.
Qed.

Lemma C2_unauthorized_sender_is_rejected_witness :
  let w := sample_world (Some {| enabled := true; channels := ["-1001"] |}) in
  let ctx := {| from_id := 14; text := "/off" |} in
  config_file (snd (bot_command (Some "12, 13") Off ctx w)) = config_file w
  /\ map reply_text (replies (snd (bot_command (Some "12, 13") Off ctx w)))
     = ["🚫 You are not authorized to use this command."].
Proof.
  pose proof (C2_unauthorized_sender_is_rejected (Some "12, 13") Off
                {| from_id := 14; text := "/off" |}
                (sample_world (Some {| enabled := true; channels := ["-1001"] |}))
                eq_refl) as H.
  cbv zeta in H. destruct H as (_ & Hcfg & Hrep & _).
  split.
  - exact Hcfg.
  - rewrite Hrep. reflexivity.
Defined.

(** * The raw-debug broadcast *)

Section RawDebug.

Context {engine : JsEngine}.

Lemma append_assoc (a b c : string) : (a ++ b) ++ c = a ++ b ++ c.
Proof. induction a as [|x a IH]; simpl; [reflexivity | now rewrite IH]. Qed.

Lemma ebind_inr {A B} (r : Exn + A) (k : A -> Exn + B) b :
  ebind r k = inr b -> exists a, r = inr a /\ k a = inr b.
Proof. destruct r as [e | a]; simpl; [discriminate | eauto]. Qed.

Lemma optional_line_extends v before after msg m :
  optional_line v before after msg = inr m -> exists t, m = msg ++ t.
Proof.
  unfold optional_line.
  destruct (strict_neq v "N/A" && strict_neq v "")%bool.
  - intros H. apply ebind_inr in H. destruct H as (s & _ & H).
    injection H as <-. eexists. reflexivity.
  - intros H. injection H as <-. exists "".
    clear. induction msg as [|x msg IH]; simpl; [reflexivity | now rewrite <- IH].
Qed.

Lemma formatted_message_heading direction data m :
  formatted_message direction data = inr m ->
  exists t, m = "🚨 *FORMATTED SIGNAL*" ++ t.
Proof.
  unfold formatted_message. intros H.
  apply ebind_inr in H. destruct H as (ticker & _ & H).
  apply ebind_inr in H. destruct H as (entry & _ & H).
  apply ebind_inr in H. destruct H as (m1 & H1 & H).
  apply ebind_inr in H. destruct H as (m2 & H2 & H).
  apply ebind_inr in H. destruct H as (m3 & H3 & H).
  apply ebind_inr in H. destruct H as (m4 & H4 & H).
  apply optional_line_extends in H1, H2, H3, H4, H.
  destruct H1 as [t1 ->], H2 as [t2 ->], H3 as [t3 ->], H4 as [t4 ->],
           H as [t5 ->].
  rewrite !append_assoc. eexists. reflexivity.
Qed.

Lemma format_signal_heading data msg :
  format_signal data = inr (Some msg) ->
  exists t, msg = "🚨 *FORMATTED SIGNAL*" ++ t.
Proof.
  unfold format_signal. intros H.
  apply ebind_inr in H. destruct H as (d & _ & H).
  destruct (meaningful data); [|discriminate].
  apply ebind_inr in H. destruct H as (m & Hm & H).
  injection H as <-. now apply formatted_message_heading in Hm.
Qed.

Lemma format_step_not_raw_debug parsed msg :
  format_step parsed = inr (Some msg) -> is_raw_debug msg = false.
Proof.
  unfold format_step, format_signal.
  destruct (snd parsed); [|discriminate].
  destruct (Object_keys (fst parsed)) as [keys|]; [|discriminate].
  destruct (Nat.ltb 0 (List.length keys)); [|discriminate].
  intros H. apply format_signal_heading in H. destruct H as [t ->].
  reflexivity.
Qed.

Lemma filter_to_all (f : string -> bool) chs msg :
  filter (fun m => f (snd m)) (to_all chs msg)
  = if f msg then to_all chs msg else [].
Proof.
  unfold to_all. induction chs as [|ch chs IH]; simpl.
  - now destruct (f msg).
  - rewrite IH. now destruct (f msg).
Qed.

Lemma after_raw_not_raw_debug chs parsed :
  filter (fun m => is_raw_debug (snd m))
         (snd (after_raw chs (format_step parsed))) = [].
Proof.
  destruct (format_step parsed) as [e | [msg |]] eqn:E; simpl.
  - now rewrite filter_to_all.
  - rewrite filter_to_all.
    now rewrite (format_step_not_raw_debug _ _ E).
  - reflexivity.
Qed.

(** [s.substring(0, n)] is the prefix of [s] of length [min n |s|]. *)
Lemma substring_is_truncation n s :
  prefix (substring 0 n s) s = true
  /\ String.length (substring 0 n s) = Nat.min n (String.length s).
Proof.
  revert s. induction n as [|n IH]; intros s.
  - destruct s; split; reflexivity.
  - destruct s as [|c s]; [split; reflexivity|].
    destruct (IH s) as [Hp Hl]. split.
    + simpl. destruct (ascii_dec c c) as [_|Hc]; [exact Hp | now destruct Hc].
    + simpl. now rewrite Hl.
Qed.

(** C3.  With [enabled = true], a POST to [/webhook] makes exactly one
    raw-debug send attempt per entry of the channel list (empty or not),
    in the order of the list: the heading, then the first 800
    characters of the raw body (the whole of it when it is shorter)
    between code fences.  The raw body is the text the JSON parser
    captured in [req.rawBody] when there is one and it is not empty;
    failing that, the body itself when it arrived as text, and
    [JSON.stringify] of the body otherwise.  This holds for
    every request body, decodable or not, and every behaviour of the
    transport; whatever else the handler sends is not a raw-debug
    message. *)
Theorem C3_raw_debug_once_per_channel (req : Request) (w : World) (cfg : Config) :
  config_file w = Some cfg ->
  enabled cfg = true ->
  exists sent,
    outbox (snd (webhook req w)) = (outbox w ++ sent)%list
    /\ filter (fun m => is_raw_debug (snd m)) sent
       = map (fun channelId =>
                (channelId,
                 "📥 *WEBHOOK RECEIVED*" ++ nl ++ nl ++ "```" ++ nl
                   ++ substring 0 800 (raw_body_of req) ++ nl ++ "```"))
             (channels cfg)
    /\ prefix (substring 0 800 (raw_body_of req)) (raw_body_of req) = true
    /\ String.length (substring 0 800 (raw_body_of req))
       = Nat.min 800 (String.length (raw_body_of req))
    /\ (forall s, rawBody req = Some s -> s <> "" -> raw_body_of req = s)
    /\ (rawBody req = None \/ rawBody req = Some "" ->
        forall s, body req = JStr s -> raw_body_of req = s)
    /\ (rawBody req = None \/ rawBody req = Some "" ->
        (forall s, body req <> JStr s) ->
        raw_body_of req = JSON_stringify (body req)).
Proof.
  intros Hcfg Hon.
  destruct (webhook_enabled_run req w cfg Hcfg Hon) as [c H].
  cbv zeta in H. rewrite H. cbn [snd outbox set_console set_responses set_outbox].
  eexists. split; [reflexivity|].
  split.
  { rewrite filter_app, after_raw_not_raw_debug, app_nil_r, filter_to_all.
    reflexivity. }
  split; [apply substring_is_truncation|].
  split; [apply substring_is_truncation|].
  unfold raw_body_of. split; [|split].
  - intros s -> Hs. apply String.eqb_neq in Hs. now rewrite Hs.
  - intros [-> | ->] s ->; reflexivity.
  - intros [-> | ->] Hnot; cbn [String.eqb];
      destruct (body req) as [| b | x | s | items | fields]; try reflexivity;
      now destruct (Hnot s).
Qed.

End RawDebug.

Lemma C3_raw_debug_once_per_channel_witness :
  let w := sample_world (Some {| enabled := true; channels := ["-1001"; "-1002"] |}) in
  let req := {| rawBody := Some "{ticker: BTCUSD}";
                body := JObj [("ticker", JStr "BTCUSD")] |} in
  filter (fun m => is_raw_debug (snd m))
         (outbox (snd (webhook (engine := sample_engine) req w)))
  = [("-1001", "📥 *WEBHOOK RECEIVED*" ++ nl ++ nl ++ "```" ++ nl
                 ++ "{ticker: BTCUSD}" ++ nl ++ "```");
     ("-1002", "📥 *WEBHOOK RECEIVED*" ++ nl ++ nl ++ "```" ++ nl
                 ++ "{ticker: BTCUSD}" ++ nl ++ "```")].
Proof.
  destruct (C3_raw_debug_once_per_channel (engine := sample_engine)
              {| rawBody := Some "{ticker: BTCUSD}";
                 body := JObj [("ticker", JStr "BTCUSD")] |}
              (sample_world (Some {| enabled := true;
                                     channels := ["-1001"; "-1002"] |}))
              {| enabled := true; channels := ["-1001"; "-1002"] |}
              eq_refl eq_refl) as (sent & Hout & Hraw & _ & _ & Hcaptured & _).
  cbv zeta. rewrite Hout. simpl app. rewrite Hraw.
  rewrite (Hcaptured "{ticker: BTCUSD}" eq_refl ltac:(discriminate)).
  reflexivity.
Defined.

(** * The formatted broadcast *)

Section Formatted.

Context {engine : JsEngine}.

Lemma direction_of_usable data :
  direction_usable data = true -> exists d, direction_of data = inr d.
Proof.
  unfold direction_usable, direction_of.
  destruct (prop data "direction") as [d|]; [|eexists; reflexivity].
  destruct d; intros H;
    try (apply negb_true_iff in H; rewrite H; eexists; reflexivity).
  destruct (truthy (JStr s)); eexists; reflexivity.
Qed.

Lemma direction_of_not_meaningful data :
  meaningful data = false -> direction_of data = inr "Signal".
Proof.
  unfold meaningful, direction_of. intros H.
  apply orb_false_iff in H. destruct H as [H _].
  apply orb_false_iff in H. destruct H as [_ H].
  destruct (prop data "direction") as [d|]; [|reflexivity].
  simpl in H. now rewrite H.
Qed.

Lemma direction_of_throws data d :
  prop data "direction" = Some d -> truthy d = true ->
  (forall s, d <> JStr s) ->
  direction_of data
  = inl (TypeError "data.direction.toUpperCase is not a function").
Proof.
  intros Hd Ht Hs. unfold direction_of. rewrite Hd, Ht.
  destruct d; try reflexivity. now destruct (Hs s).
Qed.

Lemma optional_line_printable v before after msg s :
  ToString v = Some s -> exists m, optional_line v before after msg = inr m.
Proof.
  intros H. unfold optional_line, show. rewrite H.
  destruct (strict_neq v "N/A" && strict_neq v "")%bool; eexists; reflexivity.
Qed.

Lemma formatted_message_printable direction data :
  printable data = true -> exists m, formatted_message direction data = inr m.
Proof.
  unfold printable. cbn [forallb]. intros H.
  repeat (apply andb_prop in H; let H1 := fresh "P" in destruct H as [H1 H]).
  clear H. unfold formatted_message.
  destruct (ToString (ticker_of data)) as [s1|] eqn:E1; [|discriminate].
  destruct (ToString (entryPrice_of data)) as [s2|] eqn:E2; [|discriminate].
  destruct (ToString (strategy_of data)) as [s3|] eqn:E3; [|discriminate].
  destruct (ToString (timeframe_of data)) as [s4|] eqn:E4; [|discriminate].
  destruct (ToString (contracts_of data)) as [s5|] eqn:E5; [|discriminate].
  destruct (ToString (sl_of data)) as [s6|] eqn:E6; [|discriminate].
  destruct (ToString (tp1_of data)) as [s7|] eqn:E7; [|discriminate].
  unfold show at 1 2. rewrite E1, E2. cbn [ebind].
  match goal with
  | |- context [optional_line (strategy_of data) ?b ?a ?m] =>
      destruct (optional_line_printable _ b a m _ E3) as [m1 ->]
  end. cbn [ebind].
  match goal with
  | |- context [optional_line (timeframe_of data) ?b ?a ?m] =>
      destruct (optional_line_printable _ b a m _ E4) as [m2 ->]
  end. cbn [ebind].
  match goal with
  | |- context [optional_line (contracts_of data) ?b ?a ?m] =>
      destruct (optional_line_printable _ b a m _ E5) as [m3 ->]
  end. cbn [ebind].
  match goal with
  | |- context [optional_line (sl_of data) ?b ?a ?m] =>
      destruct (optional_line_printable _ b a m _ E6) as [m4 ->]
  end. cbn [ebind].
  match goal with
  | |- context [optional_line (tp1_of data) ?b ?a ?m] =>
      destruct (optional_line_printable _ b a m _ E7) as [m5 ->]
  end.
  eexists. reflexivity.
Qed.

Lemma format_signal_meaningful data :
  meaningful data = true -> direction_usable data = true ->
  printable data = true ->
  exists msg, format_signal data = inr (Some msg).
Proof.
  intros Hm Hd Hp. unfold format_signal.
  destruct (direction_of_usable data Hd) as [d ->]. cbn [ebind].
  rewrite Hm.
  destruct (formatted_message_printable d data Hp) as [m ->].
  eexists. reflexivity.
Qed.

Lemma format_signal_not_meaningful data :
  meaningful data = false -> format_signal data = inr None.
Proof.
  intros Hm. unfold format_signal.
  rewrite (direction_of_not_meaningful data Hm). cbn [ebind].
  now rewrite Hm.
Qed.

Lemma format_step_object fields :
  fields <> [] ->
  format_step (JObj fields, true) = format_signal (JObj fields).
Proof.
  intros Hne. unfold format_step. simpl.
  destruct fields as [|kv rest]; [now destruct Hne | reflexivity].
Qed.

(** C4, amended.  An enabled request whose body decodes to a non-empty
    mapping.  If one of [ticker], [direction], [symbol] holds a truthy
    value, [direction] is absent, falsy or a string, and the values the
    message prints convert to text, then each channel gets, after its
    raw-debug message, exactly one formatted message, and the answer is
    the 200 with the channel count.  If none of the three holds a truthy
    value (absent, or present but empty, zero, false or null), only the
    raw-debug messages go out, and the answer is the same 200. *)
Theorem C4_formatted_send_when_meaningful
  (req : Request) (w : World) (cfg : Config) (fields : list (string * JsVal)) :
  config_file w = Some cfg ->
  enabled cfg = true ->
  parsed_of req = (JObj fields, true) ->
  fields <> [] ->
  let data := JObj fields in
  let raws := to_all (channels cfg) (rawMessage_of (raw_body_of req)) in
  let r := webhook req w in
  (meaningful data = true -> direction_usable data = true ->
   printable data = true ->
   exists msg,
     format_signal data = inr (Some msg)
     /\ is_formatted msg = true
     /\ outbox (snd r) = (outbox w ++ raws ++ to_all (channels cfg) msg)%list
     /\ responses (snd r)
        = (responses w ++ [sent_response (List.length (channels cfg))])%list)
  /\ (meaningful data = false ->
      outbox (snd r) = (outbox w ++ raws)%list
      /\ responses (snd r)
         = (responses w ++ [sent_response (List.length (channels cfg))])%list).
Proof.
  intros Hcfg Hon Hparsed Hne data raws r.
  destruct (webhook_enabled_run req w cfg Hcfg Hon) as [c H].
  cbv zeta in H. rewrite Hparsed, (format_step_object fields Hne) in H.
  fold data in H. subst r. rewrite H. clear H. split.
  - intros Hm Hd Hp.
    destruct (format_signal_meaningful data Hm Hd Hp) as [msg Hmsg].
    exists msg. rewrite Hmsg. simpl. repeat split.
    destruct (format_signal_heading data msg Hmsg) as [t ->].
    now destruct t.
  - intros Hm. rewrite (format_signal_not_meaningful data Hm). simpl.
    now rewrite app_nil_r.
Qed.

(** C9.  An enabled request whose body decodes to a mapping with a
    truthy [direction] that is not a string (a non-zero number, [true],
    an array, an object): the raw-debug messages have gone out, then
    normalising the direction throws, the error notice goes to every
    channel, and the answer is the 500 with
    [{success: false, error: 'Internal Error'}]. *)
Theorem C9_non_string_direction_answers_500
  (req : Request) (w : World) (cfg : Config)
  (fields : list (string * JsVal)) (d : JsVal) :
  config_file w = Some cfg ->
  enabled cfg = true ->
  parsed_of req = (JObj fields, true) ->
  assoc "direction" fields = Some d ->
  truthy d = true ->
  (forall s, d <> JStr s) ->
  let r := webhook req w in
  direction_of (JObj fields)
  = inl (TypeError "data.direction.toUpperCase is not a function")
  /\ fst r = inr tt
  /\ responses (snd r)
     = (responses w
        ++ [{| status := 500;
               json := JObj [("success", JBool false);
                             ("error", JStr "Internal Error")] |}])%list
  /\ outbox (snd r)
     = (outbox w
        ++ to_all (channels cfg) (rawMessage_of (raw_body_of req))
        ++ to_all (channels cfg)
             ("❌ *WEBHOOK ERROR*" ++ nl ++ nl
                ++ "data.direction.toUpperCase is not a function"))%list.
Proof.
  intros Hcfg Hon Hparsed Hd Ht Hs r.
  assert (Hne : fields <> []) by (intros ->; discriminate).
  pose proof (direction_of_throws (JObj fields) d Hd Ht Hs) as Hthrow.
  destruct (webhook_enabled_run req w cfg Hcfg Hon) as [c H].
  cbv zeta in H. rewrite Hparsed, (format_step_object fields Hne) in H.
  unfold format_signal in H. rewrite Hthrow in H. cbn [ebind] in H.
  subst r. rewrite H. simpl. repeat split. exact Hthrow.
Qed.

(** C10, amended.  An enabled request with an empty channel list makes
    no send attempt.  The answer is the 200 with
    ['Signal sent to 0 channels'] whenever handling the body throws
    nothing: for every body that yields no decoded payload, and for
    every decoded payload other than [null] whose [direction] is absent,
    falsy or a string and whose printed values convert to text.  When
    handling the body throws, the answer is the 500. *)
Theorem C10_no_channels_no_sends (req : Request) (w : World) (cfg : Config) :
  config_file w = Some cfg ->
  enabled cfg = true ->
  channels cfg = [] ->
  let r := webhook req w in
  let ok := {| status := 200;
               json := JObj [("success", JBool true);
                             ("message", JStr "Signal sent to 0 channels")] |} in
  fst r = inr tt
  /\ outbox (snd r) = outbox w
  /\ responses (snd r)
     = (responses w
        ++ [match format_step (parsed_of req) with
            | inr _ => ok
            | inl _ => error_response
            end])%list
  /\ (snd (parsed_of req) = false -> responses (snd r) = (responses w ++ [ok])%list)
  /\ (forall data,
        parsed_of req = (data, true) -> data <> JNull ->
        direction_usable data = true -> printable data = true ->
        responses (snd r) = (responses w ++ [ok])%list).
Proof.
  intros Hcfg Hon Hnil r ok.
  destruct (webhook_enabled_run req w cfg Hcfg Hon) as [c H].
  cbv zeta in H. rewrite Hnil in H. simpl to_all in H.
  assert (Hresp : responses (snd r)
                  = (responses w
                     ++ [match format_step (parsed_of req) with
                         | inr _ => ok
                         | inl _ => error_response
                         end])%list).
  { subst r. rewrite H. simpl.
    destruct (format_step (parsed_of req)) as [e | [m |]]; reflexivity. }
  split; [subst r; now rewrite H|].
  split.
  { subst r. rewrite H. simpl.
    destruct (format_step (parsed_of req)) as [e | [m |]]; simpl;
      now rewrite app_nil_r. }
  split; [exact Hresp|]. split.
  - intros Hno. rewrite Hresp. unfold format_step. now rewrite Hno.
  - intros data Hparsed Hnot Hd Hp. rewrite Hresp, Hparsed.
    unfold format_step. simpl fst. simpl snd. cbv iota.
    destruct (Object_keys data) as [keys|] eqn:Ek.
    + destruct (Nat.ltb 0 (List.length keys)); [|reflexivity].
      destruct (meaningful data) eqn:Em.
      * destruct (format_signal_meaningful data Em Hd Hp) as [msg ->].
        reflexivity.
      * now rewrite (format_signal_not_meaningful data Em).
    + destruct data; try discriminate. now destruct Hnot.
Qed.

End Formatted.

(** The payload [{ticker: ''}] has a [ticker], and gets no formatted
    message. *)
Lemma C4_counterexample : ~ C4_as_stated.
Proof.
  intros H.
  destruct (H sample_engine
              {| rawBody := None; body := JObj [("ticker", JStr "")] |}
              (sample_world (Some {| enabled := true; channels := ["-1001"] |}))
              {| enabled := true; channels := ["-1001"] |}
              [("ticker", JStr "")]
              eq_refl eq_refl eq_refl ltac:(discriminate)) as [Hpresent _].
  destruct (Hpresent eq_refl) as (msg & _ & Hsent).
  vm_compute in Hsent. discriminate Hsent.
Qed.

Lemma C4_formatted_send_when_meaningful_witness :
  let w := sample_world (Some {| enabled := true; channels := ["-1001"] |}) in
  let req := {| rawBody := None; body := JObj [("symbol", JStr "ETHUSD")] |} in
  List.length (outbox (snd (webhook (engine := sample_engine) req w))) = 2.
Proof.
  destruct (C4_formatted_send_when_meaningful (engine := sample_engine)
              {| rawBody := None; body := JObj [("symbol", JStr "ETHUSD")] |}
              (sample_world (Some {| enabled := true; channels := ["-1001"] |}))
              {| enabled := true; channels := ["-1001"] |}
              [("symbol", JStr "ETHUSD")]
              eq_refl eq_refl eq_refl ltac:(discriminate)) as [Hsend _].
  destruct (Hsend eq_refl eq_refl eq_refl) as (msg & _ & _ & Hout & _).
  cbv zeta. rewrite Hout. reflexivity.
Defined.

Lemma C9_non_string_direction_answers_500_witness :
  let w := sample_world (Some {| enabled := true; channels := ["-1001"] |}) in
  let req := {| rawBody := None;
                body := JObj [("ticker", JStr "BTCUSD");
                              ("direction", JNum 1%float)] |} in
  map status (responses (snd (webhook (engine := sample_engine) req w))) = [500]
  /\ List.length (outbox (snd (webhook (engine := sample_engine) req w))) = 2.
Proof.
  destruct (C9_non_string_direction_answers_500 (engine := sample_engine)
              {| rawBody := None;
                 body := JObj [("ticker", JStr "BTCUSD");
                               ("direction", JNum 1%float)] |}
              (sample_world (Some {| enabled := true; channels := ["-1001"] |}))
              {| enabled := true; channels := ["-1001"] |}
              [("ticker", JStr "BTCUSD"); ("direction", JNum 1%float)]
              (JNum 1%float)
              eq_refl eq_refl eq_refl eq_refl eq_refl
              ltac:(intros s; discriminate)) as (_ & _ & Hresp & Hout).
  cbv zeta. rewrite Hresp, Hout. split; reflexivity.
Defined.

(** No channel, [direction: true]: the answer is the 500. *)
Lemma C10_counterexample : ~ C10_as_stated.
Proof.
  intros H.
  destruct (H sample_engine
              {| rawBody := None; body := JObj [("direction", JBool true)] |}
              (sample_world (Some {| enabled := true; channels := [] |}))
              {| enabled := true; channels := [] |}
              eq_refl eq_refl eq_refl) as [_ Hresp].
  vm_compute in Hresp. discriminate Hresp.
Qed.

Lemma C10_no_channels_no_sends_witness :
  let w := sample_world (Some {| enabled := true; channels := [] |}) in
  let req := {| rawBody := None; body := JStr "not json" |} in
  outbox (snd (webhook (engine := sample_engine) req w)) = []
  /\ map status (responses (snd (webhook (engine := sample_engine) req w)))
     = [200].
Proof.
  destruct (C10_no_channels_no_sends (engine := sample_engine)
              {| rawBody := None; body := JStr "not json" |}
              (sample_world (Some {| enabled := true; channels := [] |}))
              {| enabled := true; channels := [] |}
              eq_refl eq_refl eq_refl) as (_ & Hout & _ & Hresp & _).
  cbv zeta. rewrite Hout, (Hresp eq_refl). split; reflexivity.
Defined.

(** * Field resolution *)

Lemma first_truthy_skips pre keys default data :
  Forall (falsy_at data) pre ->
  first_truthy (pre ++ keys) default data = first_truthy keys default data.
Proof.
  induction 1 as [|k pre Hk _ IH]; [reflexivity|].
  simpl. rewrite IH. unfold falsy_at in Hk. unfold or_else.
  destruct (prop data k) as [v|]; [|reflexivity].
  simpl in Hk. now rewrite Hk.
Qed.

Lemma first_truthy_resolves keys default :
  resolves (first_truthy keys default) keys default.
Proof.
  intros data. split.
  - intros pre k post v -> Hpre Hk Hv.
    rewrite (first_truthy_skips pre _ _ _ Hpre). simpl.
    unfold or_else. now rewrite Hk, Hv.
  - intros Hall.
    rewrite <- (app_nil_r keys) at 1.
    now rewrite (first_truthy_skips keys [] _ _ Hall).
Qed.

(** C5, amended.  Each field is resolved by 'first truthy wins' over its
    chain: [ticker] before [symbol], [entry_price] before [price] before
    [close], [sl] before [stop_loss], [tp1] before [take_profit], and the
    single-key [contracts], [strategy], [timeframe].  A key wins when its
    value is truthy, whatever the later keys hold; a key that is absent,
    or present with an empty string, zero, [false] or [null], hands over
    to the next one; the default ('Unknown' for the ticker, 'N/A' for the
    others) is the result when no key holds a truthy value. *)
Theorem C5_first_truthy_wins :
  resolves ticker_of ["ticker"; "symbol"] "Unknown"
  /\ resolves entryPrice_of ["entry_price"; "price"; "close"] "N/A"
  /\ resolves sl_of ["sl"; "stop_loss"] "N/A"
  /\ resolves tp1_of ["tp1"; "take_profit"] "N/A"
  /\ resolves contracts_of ["contracts"] "N/A"
  /\ resolves strategy_of ["strategy"] "N/A"
  /\ resolves timeframe_of ["timeframe"] "N/A".
Proof.
  repeat apply conj.
  - exact (first_truthy_resolves ["ticker"; "symbol"] "Unknown").
  - exact (first_truthy_resolves ["entry_price"; "price"; "close"] "N/A").
  - exact (first_truthy_resolves ["sl"; "stop_loss"] "N/A").
  - exact (first_truthy_resolves ["tp1"; "take_profit"] "N/A").
  - exact (first_truthy_resolves ["contracts"] "N/A").
  - exact (first_truthy_resolves ["strategy"] "N/A").
  - exact (first_truthy_resolves ["timeframe"] "N/A").
Qed.

Lemma C5_first_truthy_wins_witness :
  sl_of (JObj [("sl", JStr "60000"); ("stop_loss", JStr "59000")])
  = JStr "60000"
  /\ sl_of (JObj [("sl", JStr ""); ("stop_loss", JStr "59000")])
     = JStr "59000".
Proof.
  destruct C5_first_truthy_wins as (_ & _ & Hsl & _).
  split.
  - apply (proj1 (Hsl _) [] "sl" ["stop_loss"]);
      [reflexivity | constructor | reflexivity | reflexivity].
  - apply (proj1 (Hsl _) ["sl"] "stop_loss" []);
      [reflexivity | repeat constructor | reflexivity | reflexivity].
Defined.

(** [sl] is present and empty, [stop_loss] is consulted all the same. *)
Lemma C5_counterexample : ~ C5_as_stated.
Proof.
  intros H.
  destruct (H (JObj [("sl", JStr ""); ("stop_loss", JStr "59000")]))
    as (_ & _ & Hsl & _).
  vm_compute in Hsl. discriminate Hsl.
Qed.

(** * The entry-long scenario *)

(** C6, amended.  The payload
    [{ticker: 'BTCUSD', direction: 'strategy.entrylong', sl: '60000'}],
    one channel, forwarding on.  The direction matches neither BUY nor
    SELL and resolves to the literal [strategy.entrylong]; the heading
    line prints it in upper case, so the message reads
    [STRATEGY.ENTRYLONG BTCUSD @ N/A] and contains neither [Buy BTCUSD]
    nor the lower-case literal.  The message has the SL line with 60000
    and no TP1 line; the channel gets the raw-debug message, then this
    one, and the answer is the 200 for one channel. *)
Theorem C6_entrylong_scenario
  {engine : JsEngine} (raw : option string) (w : World) (channelId : string) :
  config_file w = Some {| enabled := true; channels := [channelId] |} ->
  let req := {| rawBody := raw; body := entrylong_payload |} in
  let msg := "🚨 *FORMATTED SIGNAL*" ++ nl
             ++ "📈 *STRATEGY.ENTRYLONG BTCUSD @ N/A*" ++ nl
             ++ "🛑 *SL:* `60000`" ++ nl in
  direction_of entrylong_payload = inr "strategy.entrylong"
  /\ format_signal entrylong_payload = inr (Some msg)
  /\ includes msg "Buy BTCUSD" = false
  /\ includes msg "strategy.entrylong" = false
  /\ includes msg "TP1" = false
  /\ outbox (snd (webhook req w))
     = (outbox w ++ [(channelId, rawMessage_of (raw_body_of req));
                     (channelId, msg)])%list
  /\ responses (snd (webhook req w))
     = (responses w
        ++ [{| status := 200;
               json := JObj [("success", JBool true);
                             ("message", JStr "Signal sent to 1 channels")] |}])%list.
Proof.
  intros Hcfg req msg.
  destruct (webhook_enabled_run req w _ Hcfg eq_refl) as [c H].
  cbv zeta in H. rewrite H.
  repeat split; reflexivity.
Qed.

Lemma C6_entrylong_scenario_witness :
  map fst (outbox (snd (webhook (engine := sample_engine)
                          {| rawBody := None; body := entrylong_payload |}
                          (sample_world (Some {| enabled := true;
                                                 channels := ["-1001"] |})))))
  = ["-1001"; "-1001"].
Proof.
  destruct (C6_entrylong_scenario (engine := sample_engine) None
              (sample_world (Some {| enabled := true; channels := ["-1001"] |}))
              "-1001" eq_refl) as (_ & _ & _ & _ & _ & Hout & _).
  rewrite Hout. reflexivity.
Defined.

(** The message shows [STRATEGY.ENTRYLONG], not the literal. *)
Lemma C6_counterexample : ~ C6_as_stated.
Proof.
  intros H. destruct (H sample_engine) as (msg & Hmsg & _ & Hlit & _).
  vm_compute in Hmsg. injection Hmsg as <-.
  vm_compute in Hlit. discriminate Hlit.
Qed.

(** * The commands *)

Lemma append_empty_r (s : string) : s ++ "" = s.
Proof. induction s as [|c s IH]; simpl; [reflexivity | now rewrite IH]. Qed.

Lemma fold_left_bullets ids m :
  fold_left (fun m id => m ++ nl ++ "- `" ++ id ++ "`") ids m
  = m ++ bullet_lines ids.
Proof.
  revert m. induction ids as [|id ids IH]; intros m; simpl.
  - now rewrite append_empty_r.
  - rewrite IH. rewrite append_assoc. f_equal. simpl.
    now rewrite !append_assoc.
Qed.

Section Commands.

Variable env : option string.

Lemma saveConfig_bind {B} config (k : unit -> M B) w :
  writable w = true ->
  bind (saveConfig config) k w = k tt (set_config_file (Some config) w).
Proof. intros H. unfold bind, saveConfig. now rewrite H. Qed.

Lemma saveConfig_fails {B} config (k : unit -> M B) w :
  writable w = false ->
  bind (saveConfig config) k w = (inl (SystemError (io_error w)), w).
Proof. intros H. unfold bind, saveConfig. now rewrite H. Qed.

Lemma getConfig_fails {B} (k : Config -> M B) w :
  config_file w = None ->
  bind getConfig k w = (inl (SystemError (io_error w)), w).
Proof. intros H. unfold bind, getConfig. now rewrite H. Qed.

Lemma array_includes_app xs ys x :
  array_includes (xs ++ ys) x = (array_includes xs x || array_includes ys x)%bool.
Proof. unfold array_includes. apply existsb_app. Qed.

Lemma array_includes_last xs x : array_includes (xs ++ [x]) x = true.
Proof.
  rewrite array_includes_app. unfold array_includes at 2. simpl.
  rewrite String.eqb_refl. now rewrite !orb_true_r.
Qed.

(** What [/addchannel] does for an admin when the store can be read and
    written and the argument is there. *)
Lemma addchannel_run ctx w cfg :
  authorized env ctx = true ->
  config_file w = Some cfg -> writable w = true ->
  Nat.ltb (List.length (split " " (text ctx))) 2 = false ->
  let id := nth 1 (split " " (text ctx)) "" in
  bot_command env AddChannel ctx w
  = if array_includes (channels cfg) id
    then (inr tt,
          set_replies (replies w ++ [Build_Reply ctx false
                                       "ℹ️ Channel already in list."]) w)
    else (inr tt,
          set_replies (replies w ++ [Build_Reply ctx false
                                       ("✅ Channel " ++ id ++ " added.")])
            (set_config_file
               (Some {| enabled := enabled cfg;
                        channels := channels cfg ++ [id] |}) w)).
Proof.
  intros Hadm Hcfg Hw Hargs id.
  unfold bot_command, isAdmin. unfold authorized in Hadm. rewrite Hadm.
  unfold handler, addchannel_handler. rewrite Hargs.
  rewrite (getConfig_bind _ _ _ Hcfg). fold id.
  destruct (array_includes (channels cfg) id); cbn [negb].
  - reflexivity.
  - rewrite (saveConfig_bind _ _ _ Hw). reflexivity.
Qed.

(** Whatever the world, a second identical [/addchannel] leaves the
    stored configuration as the first one left it. *)
Lemma addchannel_twice_config ctx w :
  let r1 := bot_command env AddChannel ctx w in
  let r2 := bot_command env AddChannel ctx (snd r1) in
  config_file (snd r2) = config_file (snd r1).
Proof.
  cbv zeta. unfold bot_command, isAdmin.
  destruct (array_includes (ADMIN_CHAT_IDS env) (of_Z (from_id ctx))).
  2:{ reflexivity. }
  unfold handler, addchannel_handler.
  destruct (Nat.ltb (List.length (split " " (text ctx))) 2).
  { reflexivity. }
  set (id := nth 1 (split " " (text ctx)) "").
  destruct (config_file w) as [cfg|] eqn:Hcfg.
  2:{ rewrite (getConfig_fails _ _ Hcfg). simpl snd.
      rewrite (getConfig_fails _ _ Hcfg). reflexivity. }
  rewrite (getConfig_bind _ _ _ Hcfg).
  destruct (array_includes (channels cfg) id) eqn:Hin; cbn [negb].
  - unfold reply at 1. simpl snd.
    erewrite getConfig_bind by (simpl; exact Hcfg).
    rewrite Hin. reflexivity.
  - destruct (writable w) eqn:Hw.
    + rewrite (saveConfig_bind _ _ _ Hw). unfold reply at 1. simpl snd.
      erewrite getConfig_bind by (simpl; reflexivity).
      cbn [channels]. rewrite array_includes_last. reflexivity.
    + rewrite (saveConfig_fails _ _ _ Hw). simpl snd.
      rewrite (getConfig_bind _ _ _ Hcfg), Hin. cbn [negb].
      rewrite (saveConfig_fails _ _ _ Hw). reflexivity.
Qed.

(** C7.  [/addchannel id] twice.  Whatever the initial channel list and
    the identifier, the stored configuration after the second call is
    the one after the first call.  From an admin, with a store that can
    be read and written: after the first call [id] is in the list, and
    the second call adds nothing, ends normally and replies that the
    channel is already in the list. *)
Theorem C7_addchannel_is_idempotent (ctx : Ctx) (w : World) :
  let id := nth 1 (split " " (text ctx)) "" in
  let r1 := bot_command env AddChannel ctx w in
  let r2 := bot_command env AddChannel ctx (snd r1) in
  config_file (snd r2) = config_file (snd r1)
  /\ (forall cfg,
        authorized env ctx = true ->
        config_file w = Some cfg -> writable w = true ->
        2 <= List.length (split " " (text ctx)) ->
        (exists cfg1,
            config_file (snd r1) = Some cfg1
            /\ enabled cfg1 = enabled cfg
            /\ channels cfg1
               = if array_includes (channels cfg) id then channels cfg
                 else (channels cfg ++ [id])%list)
        /\ fst r2 = inr tt
        /\ replies (snd r2)
           = (replies (snd r1)
              ++ [{| reply_ctx := ctx; reply_markdown := false;
                     reply_text := "ℹ️ Channel already in list." |}])%list).
Proof.
  intros id r1 r2. split; [apply addchannel_twice_config|].
  intros cfg Hadm Hcfg Hw Hargs.
  assert (Hlt : Nat.ltb (List.length (split " " (text ctx))) 2 = false)
    by (apply Nat.ltb_ge; exact Hargs).
  pose proof (addchannel_run ctx w cfg Hadm Hcfg Hw Hlt) as H1.
  cbv zeta in H1. fold id in H1. fold r1 in H1.
  destruct (array_includes (channels cfg) id) eqn:Hin.
  - assert (Hcfg1 : config_file (snd r1) = Some cfg) by (now rewrite H1).
    assert (Hw1 : writable (snd r1) = true) by (now rewrite H1).
    pose proof (addchannel_run ctx (snd r1) cfg Hadm Hcfg1 Hw1 Hlt) as H2.
    cbv zeta in H2. fold id in H2. fold r2 in H2. rewrite Hin in H2.
    split; [exists cfg; now destruct cfg|].
    rewrite H2. split; reflexivity.
  - set (cfg1 := {| enabled := enabled cfg; channels := channels cfg ++ [id] |}).
    assert (Hcfg1 : config_file (snd r1) = Some cfg1) by (now rewrite H1).
    assert (Hw1 : writable (snd r1) = true) by (now rewrite H1).
    pose proof (addchannel_run ctx (snd r1) cfg1 Hadm Hcfg1 Hw1 Hlt) as H2.
    cbv zeta in H2. fold id in H2. fold r2 in H2.
    unfold cfg1 in H2 at 1. cbn [channels] in H2.
    rewrite array_includes_last in H2.
    split; [exists cfg1; repeat split; assumption|].
    rewrite H2. split; reflexivity.
Qed.

(** C8, amended.  A command from an admin gets exactly one reply, and
    the handler ends normally, whenever the configuration store can be
    read and, for a command that changes it, written.  The reply is the
    ON or OFF confirmation; for [/addchannel id] the 'added'
    confirmation, or the 'already in list' notice when [id] is stored;
    for [/removechannel id] the 'removed' confirmation; for [/list] the
    Markdown listing.  A channel command sent without its argument gets
    its usage hint, ['Usage: /addchannel <channel_id>'] or
    ['Usage: /removechannel <channel_id>'], whatever the state of the
    store, which it leaves alone. *)
Theorem C8_admin_gets_a_reply (c : Command) (ctx : Ctx) (w : World) :
  authorized env ctx = true ->
  let r := bot_command env c ctx w in
  let args := split " " (text ctx) in
  let id := nth 1 args "" in
  (forall cfg,
      config_file w = Some cfg ->
      writable w = true \/ changes_store c = false ->
      fst r = inr tt
      /\ replies (snd r)
         = (replies w
            ++ [match c with
                | On =>
                    {| reply_ctx := ctx; reply_markdown := false;
                       reply_text :=
                         "🟢 Bot is now ON. Signals will be forwarded." |}
                | Off =>
                    {| reply_ctx := ctx; reply_markdown := false;
                       reply_text := "🔴 Bot is now OFF. Signals are paused." |}
                | AddChannel =>
                    {| reply_ctx := ctx; reply_markdown := false;
                       reply_text :=
                         if Nat.ltb (List.length args) 2
                         then "Usage: /addchannel <channel_id>"
                         else if array_includes (channels cfg) id
                              then "ℹ️ Channel already in list."
                              else "✅ Channel " ++ id ++ " added." |}
                | RemoveChannel =>
                    {| reply_ctx := ctx; reply_markdown := false;
                       reply_text :=
                         if Nat.ltb (List.length args) 2
                         then "Usage: /removechannel <channel_id>"
                         else "❌ Channel " ++ id ++ " removed." |}
                | List =>
                    {| reply_ctx := ctx; reply_markdown := true;
                       reply_text :=
                         "📊 *Bot Status:* "
                           ++ (if enabled cfg then "🟢 ON" else "🔴 OFF")
                           ++ nl ++ nl ++ "*Channels:*"
                           ++ match channels cfg with
                              | [] => nl ++ "None"
                              | _ :: _ => bullet_lines (channels cfg)
                              end |}
                end])%list)
  /\ (c = AddChannel \/ c = RemoveChannel ->
      List.length args < 2 ->
      fst r = inr tt
      /\ replies (snd r)
         = (replies w
            ++ [{| reply_ctx := ctx; reply_markdown := false;
                   reply_text :=
                     match c with
                     | RemoveChannel => "Usage: /removechannel <channel_id>"
                     | _ => "Usage: /addchannel <channel_id>"
                     end |}])%list
      /\ config_file (snd r) = config_file w).
Proof.
  intros Hadm r args id. subst r. unfold bot_command, isAdmin.
  unfold authorized in Hadm. rewrite Hadm. split.
  - intros cfg Hcfg Hstore.
    destruct c; unfold handler.
    + destruct Hstore as [Hw | Hno]; [|discriminate Hno].
      unfold on_handler.
      rewrite (getConfig_bind _ _ _ Hcfg), (saveConfig_bind _ _ _ Hw).
      split; reflexivity.
    + destruct Hstore as [Hw | Hno]; [|discriminate Hno].
      unfold off_handler.
      rewrite (getConfig_bind _ _ _ Hcfg), (saveConfig_bind _ _ _ Hw).
      split; reflexivity.
    + destruct Hstore as [Hw | Hno]; [|discriminate Hno].
      unfold addchannel_handler. fold args.
      destruct (Nat.ltb (List.length args) 2).
      { split; reflexivity. }
      rewrite (getConfig_bind _ _ _ Hcfg). fold id.
      destruct (array_includes (channels cfg) id); cbn [negb].
      * split; reflexivity.
      * rewrite (saveConfig_bind _ _ _ Hw). split; reflexivity.
    + destruct Hstore as [Hw | Hno]; [|discriminate Hno].
      unfold removechannel_handler. fold args.
      destruct (Nat.ltb (List.length args) 2).
      { split; reflexivity. }
      rewrite (getConfig_bind _ _ _ Hcfg), (saveConfig_bind _ _ _ Hw).
      split; reflexivity.
    + unfold list_handler. rewrite (getConfig_bind _ _ _ Hcfg).
      unfold replyWithMarkdown. cbn [fst snd replies set_replies].
      split; [reflexivity|]. do 3 f_equal.
      destruct (channels cfg) as [|x xs] eqn:Hch.
      * destruct (enabled cfg); reflexivity.
      * cbn [List.length Nat.eqb]. rewrite fold_left_bullets.
        destruct (enabled cfg); reflexivity.
  - intros Hc Hargs. apply Nat.ltb_lt in Hargs.
    destruct Hc as [-> | ->]; unfold handler.
    + unfold addchannel_handler. fold args. rewrite Hargs.
      repeat split.
    + unfold removechannel_handler. fold args. rewrite Hargs.
      repeat split.
Qed.

End Commands.

Lemma C7_addchannel_is_idempotent_witness :
  let w := sample_world (Some {| enabled := true; channels := ["-1001"] |}) in
  let ctx := {| from_id := 13; text := "/addchannel -1002" |} in
  let r1 := bot_command (Some "12, 13") AddChannel ctx w in
  let r2 := bot_command (Some "12, 13") AddChannel ctx (snd r1) in
  config_file (snd r2) = config_file (snd r1)
  /\ map reply_text (replies (snd r2))
     = ["✅ Channel -1002 added."; "ℹ️ Channel already in list."].
Proof.
  destruct (C7_addchannel_is_idempotent (Some "12, 13")
              {| from_id := 13; text := "/addchannel -1002" |}
              (sample_world (Some {| enabled := true; channels := ["-1001"] |})))
    as [Hsame Hadmin].
  destruct (Hadmin {| enabled := true; channels := ["-1001"] |}
              eq_refl eq_refl eq_refl ltac:(simpl; lia)) as (_ & _ & Hrep).
  cbv zeta in *. split.
  - exact Hsame.
  - rewrite Hrep. reflexivity.
Defined.

Lemma C8_admin_gets_a_reply_witness :
  let w := sample_world (Some {| enabled := false; channels := ["-1001"] |}) in
  map reply_text
    (replies (snd (bot_command (Some "12, 13") On
                     {| from_id := 12; text := "/on" |} w)))
  = ["🟢 Bot is now ON. Signals will be forwarded."]
  /\ map reply_text
       (replies (snd (bot_command (Some "12, 13") RemoveChannel
                        {| from_id := 12; text := "/removechannel" |} w)))
     = ["Usage: /removechannel <channel_id>"].
Proof.
  destruct (C8_admin_gets_a_reply (Some "12, 13") On
              {| from_id := 12; text := "/on" |}
              (sample_world (Some {| enabled := false; channels := ["-1001"] |}))
              eq_refl) as [Hreply _].
  destruct (Hreply _ eq_refl (or_introl eq_refl)) as (_ & Hrep).
  destruct (C8_admin_gets_a_reply (Some "12, 13") RemoveChannel
              {| from_id := 12; text := "/removechannel" |}
              (sample_world (Some {| enabled := false; channels := ["-1001"] |}))
              eq_refl) as [_ Husage].
  destruct (Husage (or_intror eq_refl) ltac:(simpl; lia)) as (_ & Hhint & _).
  cbv zeta in *. rewrite Hrep, Hhint. split; reflexivity.
Defined.

(** [/on] from an admin while [config.json] cannot be read: the handler
    throws and nobody is told. *)
Lemma C8_counterexample : ~ C8_as_stated.
Proof.
  intros H.
  destruct (H (Some "12, 13") On {| from_id := 12; text := "/on" |}
              (sample_world None) eq_refl) as (new & Hnew & Hne).
  vm_compute in Hnew. destruct new; [now apply Hne | discriminate Hnew].
Qed.

(** * Further properties of the commands *)

Section MoreCommands.

Variable env : option string.

Lemma array_includes_In xs x : array_includes xs x = true <-> In x xs.
Proof.
  unfold array_includes. rewrite existsb_exists. split.
  - intros (y & Hy & Heq). apply String.eqb_eq in Heq. now subst.
  - intros H. exists x. split; [exact H | apply String.eqb_refl].
Qed.

Lemma array_includes_not_In xs x : array_includes xs x = false <-> ~ In x xs.
Proof.
  split.
  - intros H Hin. apply array_includes_In in Hin. congruence.
  - intros H. destruct (array_includes xs x) eqn:E; [|reflexivity].
    apply array_includes_In in E. contradiction.
Qed.

Lemma argument_spec ctx id :
  argument ctx = Some id ->
  Nat.ltb (List.length (split " " (text ctx))) 2 = false
  /\ nth 1 (split " " (text ctx)) "" = id.
Proof.
  unfold argument. intros H. split.
  - apply Nat.ltb_ge.
    assert (1 < List.length (split " " (text ctx))); [|lia].
    apply nth_error_Some. now rewrite H.
  - now apply nth_error_nth.
Qed.

Lemma removed_filter id (l : list string) :
  ~ In id l -> filter (fun x => negb (String.eqb x id)) l = l.
Proof.
  induction l as [|y l IH]; intros Hn; [reflexivity|]. simpl.
  destruct (String.eqb_spec y id) as [->|Hne].
  - destruct Hn. now left.
  - simpl. rewrite IH; [reflexivity|]. intros Hin. apply Hn. now right.
Qed.

(** What [/removechannel] does for an admin when the store can be read
    and written and the argument is there. *)
Lemma removechannel_run ctx w cfg id :
  authorized env ctx = true ->
  config_file w = Some cfg -> writable w = true ->
  argument ctx = Some id ->
  bot_command env RemoveChannel ctx w
  = (inr tt,
     set_replies (replies w ++ [Build_Reply ctx false
                                  ("❌ Channel " ++ id ++ " removed.")])
       (set_config_file
          (Some {| enabled := enabled cfg;
                   channels := filter (fun x => negb (String.eqb x id))
                                      (channels cfg) |}) w)).
Proof.
  intros Hadm Hcfg Hw Harg. destruct (argument_spec _ _ Harg) as [Hlt Hid].
  unfold bot_command, isAdmin. unfold authorized in Hadm. rewrite Hadm.
  unfold handler, removechannel_handler. rewrite Hlt, Hid.
  rewrite (getConfig_bind _ _ _ Hcfg), (saveConfig_bind _ _ _ Hw).
  reflexivity.
Qed.

Lemma toggle_run (c : Command) (b : bool) ctx w cfg :
  (c = On /\ b = true) \/ (c = Off /\ b = false) ->
  authorized env ctx = true ->
  config_file w = Some cfg -> writable w = true ->
  exists t,
    bot_command env c ctx w
    = (inr tt,
       set_replies (replies w ++ [Build_Reply ctx false t])
         (set_config_file
            (Some {| enabled := b; channels := channels cfg |}) w)).
Proof.
  intros Hc Hadm Hcfg Hw.
  unfold bot_command, isAdmin. unfold authorized in Hadm. rewrite Hadm.
  destruct Hc as [[-> ->] | [-> ->]]; unfold handler.
  - unfold on_handler.
    rewrite (getConfig_bind _ _ _ Hcfg), (saveConfig_bind _ _ _ Hw).
    eexists. reflexivity.
  - unfold off_handler.
    rewrite (getConfig_bind _ _ _ Hcfg), (saveConfig_bind _ _ _ Hw).
    eexists. reflexivity.
Qed.

(** X1.  [/removechannel id] from an admin, the store readable and
    writable: every occurrence of [id] leaves the list, every other
    entry stays, in order; [enabled] is kept; the confirmation is sent
    whether or not [id] was in the list, and when it was not the list is
    what it was. *)
Theorem removechannel_removes_every_occurrence
  (ctx : Ctx) (w : World) (cfg : Config) (id : string) :
  authorized env ctx = true ->
  config_file w = Some cfg -> writable w = true ->
  argument ctx = Some id ->
  let r := bot_command env RemoveChannel ctx w in
  exists cfg',
    config_file (snd r) = Some cfg'
    /\ enabled cfg' = enabled cfg
    /\ channels cfg' = filter (fun x => negb (String.eqb x id)) (channels cfg)
    /\ (forall x, In x (channels cfg') <-> In x (channels cfg) /\ x <> id)
    /\ (~ In id (channels cfg) -> channels cfg' = channels cfg)
    /\ fst r = inr tt
    /\ replies (snd r)
       = (replies w
          ++ [{| reply_ctx := ctx; reply_markdown := false;
                 reply_text := "❌ Channel " ++ id ++ " removed." |}])%list.
Proof.
  intros Hadm Hcfg Hw Harg r. subst r.
  rewrite (removechannel_run ctx w cfg id Hadm Hcfg Hw Harg).
  eexists. split; [reflexivity|]. cbn [enabled channels fst snd].
  split; [reflexivity|]. split; [reflexivity|].
  split; [|split; [apply removed_filter | split; reflexivity]].
  intros x. rewrite filter_In, negb_true_iff, String.eqb_neq. tauto.
Qed.

(** X2.  [/addchannel id] of an identifier that is not in the list, then
    [/removechannel id], both from admins: the stored configuration is
    the initial one again. *)
Theorem addchannel_then_removechannel_restores
  (ctxA ctxR : Ctx) (w : World) (cfg : Config) (id : string) :
  authorized env ctxA = true -> authorized env ctxR = true ->
  config_file w = Some cfg -> writable w = true ->
  argument ctxA = Some id -> argument ctxR = Some id ->
  ~ In id (channels cfg) ->
  let r1 := bot_command env AddChannel ctxA w in
  let r2 := bot_command env RemoveChannel ctxR (snd r1) in
  config_file (snd r1)
  = Some {| enabled := enabled cfg; channels := channels cfg ++ [id] |}
  /\ config_file (snd r2) = Some cfg.
Proof.
  intros HadmA HadmR Hcfg Hw HargA HargR Hnot r1 r2.
  destruct (argument_spec _ _ HargA) as [Hlt Hid].
  pose proof (addchannel_run env ctxA w cfg HadmA Hcfg Hw Hlt) as H1.
  cbv zeta in H1. rewrite Hid in H1.
  apply array_includes_not_In in Hnot. rewrite Hnot in H1.
  fold r1 in H1.
  assert (Hcfg1 : config_file (snd r1)
                  = Some {| enabled := enabled cfg;
                            channels := channels cfg ++ [id] |})
    by (now rewrite H1).
  assert (Hw1 : writable (snd r1) = true) by (now rewrite H1).
  split; [exact Hcfg1|]. subst r2.
  rewrite (removechannel_run ctxR (snd r1) _ id HadmR Hcfg1 Hw1 HargR).
  cbn [snd config_file set_replies set_config_file enabled channels].
  rewrite filter_app. simpl. rewrite String.eqb_refl. simpl.
  rewrite app_nil_r, removed_filter
    by (now apply array_includes_not_In).
  now destruct cfg.
Qed.

(** X3.  No command, from anybody, in any world, puts a duplicate into
    the stored channel list: a list without duplicates stays one. *)
Theorem commands_keep_channels_distinct (c : Command) (ctx : Ctx) (w : World) :
  store_NoDup w -> store_NoDup (snd (bot_command env c ctx w)).
Proof.
  intros Hnd. unfold bot_command, isAdmin.
  destruct (array_includes (ADMIN_CHAT_IDS env) (of_Z (from_id ctx)));
    [|exact Hnd].
  unfold store_NoDup in *.
  destruct (config_file w) as [cfg|] eqn:Hcfg.
  2:{ destruct c; unfold handler, on_handler, off_handler, addchannel_handler,
        removechannel_handler, list_handler;
        try destruct (Nat.ltb _ 2); try rewrite (getConfig_fails _ _ Hcfg);
        simpl; now rewrite Hcfg. }
  destruct (writable w) eqn:Hw; destruct c;
    unfold handler, on_handler, off_handler, addchannel_handler,
      removechannel_handler, list_handler;
    try (destruct (Nat.ltb _ 2); [simpl; now rewrite Hcfg|]);
    rewrite (getConfig_bind _ _ _ Hcfg);
    try (destruct (array_includes (channels cfg) _) eqn:Hin; cbn [negb]);
    try rewrite (saveConfig_bind _ _ _ Hw);
    try rewrite (saveConfig_fails _ _ _ Hw);
    simpl; try (rewrite Hcfg; exact Hnd); try exact Hnd.
  - (* the identifier is appended *)
    apply NoDup_app; [exact Hnd | repeat constructor; intros [] |].
    intros x Hx [<- | []]. apply array_includes_not_In in Hin. now apply Hin.
  - (* entries are filtered out *)
    now apply NoDup_filter.
Qed.

End MoreCommands.

Lemma removechannel_removes_every_occurrence_witness :
  let w := sample_world (Some {| enabled := true;
                                 channels := ["-1001"; "-1002"; "-1001"] |}) in
  let ctx := {| from_id := 12; text := "/removechannel -1001" |} in
  exists cfg',
    config_file (snd (bot_command (Some "12, 13") RemoveChannel ctx w))
    = Some cfg'
    /\ channels cfg' = ["-1002"].
Proof.
  destruct (removechannel_removes_every_occurrence (Some "12, 13")
              {| from_id := 12; text := "/removechannel -1001" |}
              (sample_world (Some {| enabled := true;
                                     channels := ["-1001"; "-1002"; "-1001"] |}))
              {| enabled := true; channels := ["-1001"; "-1002"; "-1001"] |}
              "-1001" eq_refl eq_refl eq_refl eq_refl)
    as (cfg' & Hcfg & _ & Hch & _).
  exists cfg'. split; [exact Hcfg | rewrite Hch; reflexivity].
Defined.

Lemma addchannel_then_removechannel_restores_witness :
  let cfg := {| enabled := false; channels := ["-1001"] |} in
  let w := sample_world (Some cfg) in
  let r1 := bot_command (Some "12, 13") AddChannel
              {| from_id := 12; text := "/addchannel -1002" |} w in
  config_file (snd (bot_command (Some "12, 13") RemoveChannel
                      {| from_id := 13; text := "/removechannel -1002 now" |}
                      (snd r1)))
  = Some cfg.
Proof.
  apply (addchannel_then_removechannel_restores (Some "12, 13")
           {| from_id := 12; text := "/addchannel -1002" |}
           {| from_id := 13; text := "/removechannel -1002 now" |}
           (sample_world (Some {| enabled := false; channels := ["-1001"] |}))
           {| enabled := false; channels := ["-1001"] |} "-1002"
           eq_refl eq_refl eq_refl eq_refl eq_refl eq_refl).
  simpl. intros [H | []]. discriminate H.
Defined.

Lemma commands_keep_channels_distinct_witness :
  store_NoDup
    (snd (bot_command (Some "12, 13") AddChannel
            {| from_id := 12; text := "/addchannel -1001" |}
            (sample_world (Some {| enabled := true;
                                   channels := ["-1001"; "-1002"] |})))).
Proof.
  apply (commands_keep_channels_distinct (Some "12, 13")).
  simpl. repeat constructor; simpl; intuition discriminate.
Defined.

(** * The commands and the webhook together *)

Section Together.

Context {engine : JsEngine}.
Variable env : option string.

(** X4.  After an admin's [/off] on a readable, writable store, a POST to
    [/webhook] sends nothing, whatever its body, and answers 200
    ['Bot is disabled']; the channel list is the one stored before. *)
Theorem off_silences_the_webhook
  (ctx : Ctx) (req : Request) (w : World) (cfg : Config) :
  authorized env ctx = true ->
  config_file w = Some cfg -> writable w = true ->
  let w1 := snd (bot_command env Off ctx w) in
  let r := webhook req w1 in
  config_file w1 = Some {| enabled := false; channels := channels cfg |}
  /\ outbox (snd r) = outbox w
  /\ responses (snd r) = (responses w ++ [disabled_response])%list.
Proof.
  intros Hadm Hcfg Hw w1 r.
  destruct (toggle_run env Off false ctx w cfg
              (or_intror (conj eq_refl eq_refl)) Hadm Hcfg Hw) as [t Ht].
  assert (Hcfg1 : config_file w1
                  = Some {| enabled := false; channels := channels cfg |})
    by (subst w1; now rewrite Ht).
  split; [exact Hcfg1|]. subst r.
  rewrite (webhook_disabled_exact req w1 _ Hcfg1 eq_refl).
  subst w1. rewrite Ht. split; reflexivity.
Qed.

(** X5.  After an admin's [/on] on a readable, writable store, a POST to
    [/webhook] hands the raw-debug message to every stored channel, in
    the stored order, before anything else. *)
Theorem on_opens_the_webhook
  (ctx : Ctx) (req : Request) (w : World) (cfg : Config) :
  authorized env ctx = true ->
  config_file w = Some cfg -> writable w = true ->
  let w1 := snd (bot_command env On ctx w) in
  let r := webhook req w1 in
  config_file w1 = Some {| enabled := true; channels := channels cfg |}
  /\ exists rest,
       outbox (snd r)
       = (outbox w
          ++ to_all (channels cfg) (rawMessage_of (raw_body_of req))
          ++ rest)%list.
Proof.
  intros Hadm Hcfg Hw w1 r.
  destruct (toggle_run env On true ctx w cfg
              (or_introl (conj eq_refl eq_refl)) Hadm Hcfg Hw) as [t Ht].
  assert (Hcfg1 : config_file w1
                  = Some {| enabled := true; channels := channels cfg |})
    by (subst w1; now rewrite Ht).
  split; [exact Hcfg1|]. subst r.
  destruct (webhook_enabled_run req w1 _ Hcfg1 eq_refl) as [c H].
  cbv zeta in H. rewrite H. eexists.
  subst w1. rewrite Ht. reflexivity.
Qed.

End Together.

Lemma off_silences_the_webhook_witness :
  let w := sample_world (Some {| enabled := true; channels := ["-1001"] |}) in
  let w1 := snd (bot_command (Some "12, 13") Off
                   {| from_id := 12; text := "/off" |} w) in
  outbox (snd (webhook (engine := sample_engine)
                 {| rawBody := Some "BUY"; body := JStr "BUY" |} w1)) = [].
Proof.
  destruct (off_silences_the_webhook (engine := sample_engine) (Some "12, 13")
              {| from_id := 12; text := "/off" |}
              {| rawBody := Some "BUY"; body := JStr "BUY" |}
              (sample_world (Some {| enabled := true; channels := ["-1001"] |}))
              {| enabled := true; channels := ["-1001"] |}
              eq_refl eq_refl eq_refl) as (_ & Hout & _).
  exact Hout.
Defined.

Lemma on_opens_the_webhook_witness :
  let w := sample_world (Some {| enabled := false;
                                 channels := ["-1001"; "-1002"] |}) in
  let w1 := snd (bot_command (Some "12, 13") On
                   {| from_id := 12; text := "/on" |} w) in
  map fst (firstn 2 (outbox (snd (webhook (engine := sample_engine)
                                    {| rawBody := Some "BUY";
                                       body := JStr "BUY" |} w1))))
  = ["-1001"; "-1002"].
Proof.
  destruct (on_opens_the_webhook (engine := sample_engine) (Some "12, 13")
              {| from_id := 12; text := "/on" |}
              {| rawBody := Some "BUY"; body := JStr "BUY" |}
              (sample_world (Some {| enabled := false;
                                     channels := ["-1001"; "-1002"] |}))
              {| enabled := false; channels := ["-1001"; "-1002"] |}
              eq_refl eq_refl eq_refl) as (_ & rest & Hout).
  cbv zeta. rewrite Hout. reflexivity.
Defined.

(** * The listing and the empty allow-list *)

(** X6.  [/list] from an admin needs the store readable only.  Its one
    reply, in Markdown, shows the switch and then either 'None' or one
    bullet line per stored channel, in the stored order; nothing is
    written or sent. *)
Theorem list_shows_every_channel
  (env : option string) (ctx : Ctx) (w : World) (cfg : Config) :
  authorized env ctx = true ->
  config_file w = Some cfg ->
  let r := bot_command env List ctx w in
  fst r = inr tt
  /\ config_file (snd r) = config_file w
  /\ outbox (snd r) = outbox w
  /\ replies (snd r)
     = (replies w
        ++ [{| reply_ctx := ctx; reply_markdown := true;
               reply_text :=
                 "📊 *Bot Status:* "
                   ++ (if enabled cfg then "🟢 ON" else "🔴 OFF")
                   ++ nl ++ nl ++ "*Channels:*"
                   ++ match channels cfg with
                      | [] => nl ++ "None"
                      | _ :: _ => bullet_lines (channels cfg)
                      end |}])%list.
Proof.
  intros Hadm Hcfg r. subst r.
  unfold bot_command, isAdmin. unfold authorized in Hadm. rewrite Hadm.
  unfold handler, list_handler. rewrite (getConfig_bind _ _ _ Hcfg).
  unfold replyWithMarkdown. cbn [fst snd config_file outbox replies set_replies].
  repeat split. do 3 f_equal.
  destruct (channels cfg) as [|id ids] eqn:Hch.
  - destruct (enabled cfg); reflexivity.
  - cbn [List.length Nat.eqb]. rewrite fold_left_bullets.
    destruct (enabled cfg); reflexivity.
Qed.

Lemma list_shows_every_channel_witness :
  map reply_text
    (replies (snd (bot_command (Some "12, 13") List
                     {| from_id := 13; text := "/list" |}
                     (sample_world (Some {| enabled := false;
                                            channels := ["-1001"; "@news"] |})))))
  = ["📊 *Bot Status:* 🔴 OFF" ++ nl ++ nl ++ "*Channels:*"
       ++ nl ++ "- `-1001`" ++ nl ++ "- `@news`"].
Proof.
  destruct (list_shows_every_channel (Some "12, 13")
              {| from_id := 13; text := "/list" |}
              (sample_world (Some {| enabled := false;
                                     channels := ["-1001"; "@news"] |}))
              {| enabled := false; channels := ["-1001"; "@news"] |}
              eq_refl eq_refl) as (_ & _ & _ & Hrep).
  rewrite Hrep. reflexivity.
Defined.

Lemma of_Z_nonempty (z : Z) : of_Z z <> "".
Proof.
  unfold of_Z, NilZero.string_of_int.
  destruct (Z.to_int z) as [d | d]; [|discriminate].
  unfold NilZero.string_of_uint. destruct d; discriminate.
Qed.

(** X7.  With [ADMIN_CHAT_IDS] unset or empty the allow-list is the one
    empty string, which no identity prints as: every command of every
    sender is rejected and the store is left alone. *)
Theorem empty_allow_list_admits_nobody
  (env : option string) (c : Command) (ctx : Ctx) (w : World) :
  env = None \/ env = Some "" ->
  authorized env ctx = false
  /\ config_file (snd (bot_command env c ctx w)) = config_file w
  /\ replies (snd (bot_command env c ctx w))
     = (replies w
        ++ [{| reply_ctx := ctx; reply_markdown := false;
               reply_text := "🚫 You are not authorized to use this command." |}])%list.
Proof.
  intros Henv.
  assert (Hno : authorized env ctx = false).
  { unfold authorized, array_includes.
    assert (Hids : ADMIN_CHAT_IDS env = [""])
      by (destruct Henv as [-> | ->]; reflexivity).
    rewrite Hids. simpl. rewrite orb_false_r.
    apply String.eqb_neq, of_Z_nonempty. }
  split; [exact Hno|].
  unfold bot_command, isAdmin. unfold authorized in Hno. rewrite Hno.
  split; reflexivity.
Qed.

Lemma empty_allow_list_admits_nobody_witness :
  authorized None {| from_id := 0; text := "/on" |} = false.
Proof.
  apply (empty_allow_list_admits_nobody None On
           {| from_id := 0; text := "/on" |} (sample_world None)
           (or_introl eq_refl)).
Defined.

(** * Further properties of the webhook *)

Section MoreWebhook.

Context {engine : JsEngine}.

(** The whole handler when [config.json] cannot be read: the [catch]
    block fails to read it too, and only answers. *)
Lemma webhook_unreadable_run req w :
  config_file w = None ->
  webhook req w
  = (inr tt,
     set_console (console w ++ ["Webhook Error: " ++ io_error w])
       (set_responses (responses w ++ [error_response]) w)).
Proof.
  intros Hcfg. unfold webhook.
  erewrite try_err.
  2:{ unfold webhook_try. apply (getConfig_fails _ _ Hcfg). }
  unfold webhook_catch, console_error. rewrite console_log_bind.
  erewrite bind_ok.
  2:{ erewrite try_err.
      2:{ apply getConfig_fails. exact Hcfg. }
      reflexivity. }
  reflexivity.
Qed.

(** X8.  Every POST to [/webhook], in every world, is answered exactly
    once, with a 200 or a 500, and the handler itself never throws; it
    never writes [config.json] and never replies to a chat. *)
Theorem webhook_answers_exactly_once (req : Request) (w : World) :
  let r := webhook req w in
  exists resp,
    fst r = inr tt
    /\ responses (snd r) = (responses w ++ [resp])%list
    /\ (status resp = 200 \/ status resp = 500)
    /\ config_file (snd r) = config_file w
    /\ replies (snd r) = replies w.
Proof.
  intros r. subst r.
  destruct (config_file w) as [cfg|] eqn:Hcfg.
  - destruct (enabled cfg) eqn:Hen.
    + destruct (webhook_enabled_run req w cfg Hcfg Hen) as [c H].
      cbv zeta in H. rewrite H. eexists.
      cbn [fst snd responses config_file replies set_console set_responses
             set_outbox].
      repeat split; [|exact Hcfg].
      destruct (format_step (parsed_of req)) as [e | [m |]];
        [right | left | left]; reflexivity.
    + rewrite (webhook_disabled_exact req w cfg Hcfg Hen). eexists.
      cbn [fst snd responses config_file replies set_console set_responses].
      repeat split; [left; reflexivity | exact Hcfg].
  - rewrite (webhook_unreadable_run req w Hcfg). eexists.
    cbn [fst snd responses config_file replies set_console set_responses].
    repeat split; [right; reflexivity | exact Hcfg].
Qed.

(** X9.  While [config.json] cannot be read, a POST to [/webhook] is
    answered 500 [{success: false, error: 'Internal Error'}] and nothing
    is sent to any channel: the error notice needs the channel list. *)
Theorem webhook_without_config_answers_500 (req : Request) (w : World) :
  config_file w = None ->
  let r := webhook req w in
  fst r = inr tt
  /\ outbox (snd r) = outbox w
  /\ responses (snd r)
     = (responses w
        ++ [{| status := 500;
               json := JObj [("success", JBool false);
                             ("error", JStr "Internal Error")] |}])%list.
Proof.
  intros Hcfg r. subst r. rewrite (webhook_unreadable_run req w Hcfg).
  repeat split.
Qed.

(** X10.  What the transport does with the sends changes neither the
    attempts made nor the answer: with any failure pattern in place of
    the world's, the handler hands over the same messages in the same
    order and gives the same response. *)
Theorem transport_failures_change_nothing
  (t : nat -> option string) (req : Request) (w : World) :
  let r := webhook req w in
  let r' := webhook req (set_telegram t w) in
  fst r' = fst r
  /\ outbox (snd r') = outbox (snd r)
  /\ responses (snd r') = responses (snd r).
Proof.
  intros r r'. subst r r'.
  destruct (config_file w) as [cfg|] eqn:Hcfg.
  - assert (Hcfg' : config_file (set_telegram t w) = Some cfg) by exact Hcfg.
    destruct (enabled cfg) eqn:Hen.
    + destruct (webhook_enabled_run req w cfg Hcfg Hen) as [c H].
      destruct (webhook_enabled_run req _ cfg Hcfg' Hen) as [c' H'].
      cbv zeta in H, H'. rewrite H, H'. repeat split.
    + rewrite (webhook_disabled_exact req w cfg Hcfg Hen).
      rewrite (webhook_disabled_exact req _ cfg Hcfg' Hen). repeat split.
  - assert (Hcfg' : config_file (set_telegram t w) = None) by exact Hcfg.
    rewrite (webhook_unreadable_run req w Hcfg).
    rewrite (webhook_unreadable_run req _ Hcfg'). repeat split.
Qed.

(** X11.  A text body that [JSON.parse] rejects is not an error: with
    forwarding on, each channel gets the raw-debug message and nothing
    else, and the answer is the 200 with the channel count.  When the
    JSON parser's hook left no raw body, the quoted text is the body
    itself. *)
Theorem malformed_text_is_forwarded_raw
  (req : Request) (w : World) (cfg : Config) (s : string) (e : Exn) :
  config_file w = Some cfg -> enabled cfg = true ->
  body req = JStr s -> JSON_parse s = inl e ->
  let r := webhook req w in
  outbox (snd r)
  = (outbox w ++ to_all (channels cfg) (rawMessage_of (raw_body_of req)))%list
  /\ responses (snd r)
     = (responses w ++ [sent_response (List.length (channels cfg))])%list
  /\ (rawBody req = None -> raw_body_of req = s).
Proof.
  intros Hcfg Hen Hbody Hparse r. subst r.
  destruct (webhook_enabled_run req w cfg Hcfg Hen) as [c H].
  cbv zeta in H. rewrite H. clear H.
  unfold parsed_of, raw_body_of. rewrite Hbody, Hparse.
  cbn. rewrite app_nil_r. repeat split.
  intros ->. reflexivity.
Qed.

(** X12.  A text body that decodes to [null] passes for parsed, and
    [Object.keys(null)] throws: after the raw-debug messages every
    channel gets the error notice, and the answer is the 500. *)
Theorem null_payload_answers_500
  (req : Request) (w : World) (cfg : Config) (s : string) :
  config_file w = Some cfg -> enabled cfg = true ->
  body req = JStr s -> JSON_parse s = inr JNull ->
  let r := webhook req w in
  outbox (snd r)
  = (outbox w
     ++ to_all (channels cfg) (rawMessage_of (raw_body_of req))
     ++ to_all (channels cfg)
          ("❌ *WEBHOOK ERROR*" ++ nl ++ nl
             ++ "Cannot convert undefined or null to object"))%list
  /\ responses (snd r) = (responses w ++ [error_response])%list.
Proof.
  intros Hcfg Hen Hbody Hparse r. subst r.
  destruct (webhook_enabled_run req w cfg Hcfg Hen) as [c H].
  cbv zeta in H. rewrite H. clear H.
  unfold parsed_of. rewrite Hbody, Hparse. split; reflexivity.
Qed.

(** X13.  A decoded payload that is not a mapping with fields (the empty
    object, an array, a string, a number, a boolean) has nothing to
    format: only the raw-debug messages go out and the answer is the
    200. *)
Theorem non_mapping_payload_is_forwarded_raw
  (req : Request) (w : World) (cfg : Config) (data : JsVal) :
  config_file w = Some cfg -> enabled cfg = true ->
  parsed_of req = (data, true) ->
  data <> JNull ->
  (forall kv rest, data <> JObj (kv :: rest)) ->
  let r := webhook req w in
  outbox (snd r)
  = (outbox w ++ to_all (channels cfg) (rawMessage_of (raw_body_of req)))%list
  /\ responses (snd r)
     = (responses w ++ [sent_response (List.length (channels cfg))])%list.
Proof.
  intros Hcfg Hen Hparsed Hnull Hobj r. subst r.
  destruct (webhook_enabled_run req w cfg Hcfg Hen) as [c H].
  cbv zeta in H. rewrite H. clear H. rewrite Hparsed.
  assert (Hstep : format_step (data, true) = inr None).
  { unfold format_step. cbn [fst snd].
    destruct data as [| b | x | s | items | fields]; cbn [Object_keys].
    - now destruct Hnull.
    - reflexivity.
    - reflexivity.
    - destruct (Nat.ltb 0 _); reflexivity.
    - destruct (Nat.ltb 0 _); reflexivity.
    - destruct fields as [|kv rest]; [reflexivity|].
      now destruct (Hobj kv rest). }
  rewrite Hstep. cbn. rewrite app_nil_r. split; reflexivity.
Qed.

End MoreWebhook.

Lemma webhook_without_config_answers_500_witness :
  map status
    (responses (snd (webhook (engine := sample_engine)
                       {| rawBody := None; body := JObj [] |}
                       (sample_world None))))
  = [500].
Proof.
  destruct (webhook_without_config_answers_500 (engine := sample_engine)
              {| rawBody := None; body := JObj [] |} (sample_world None)
              eq_refl) as (_ & _ & Hresp).
  rewrite Hresp. reflexivity.
Defined.

Lemma malformed_text_is_forwarded_raw_witness :
  outbox (snd (webhook (engine := sample_engine)
                 {| rawBody := None; body := JStr "not json" |}
                 (sample_world (Some {| enabled := true;
                                        channels := ["-1001"] |}))))
  = [("-1001", "📥 *WEBHOOK RECEIVED*" ++ nl ++ nl ++ "```" ++ nl
                 ++ "not json" ++ nl ++ "```")].
Proof.
  destruct (malformed_text_is_forwarded_raw (engine := sample_engine)
              {| rawBody := None; body := JStr "not json" |}
              (sample_world (Some {| enabled := true; channels := ["-1001"] |}))
              {| enabled := true; channels := ["-1001"] |}
              "not json" (SyntaxError "Unexpected token")
              eq_refl eq_refl eq_refl eq_refl) as (Hout & _).
  rewrite Hout. reflexivity.
Defined.

Lemma null_payload_answers_500_witness :
  map status
    (responses (snd (webhook (engine := literal_engine)
                       {| rawBody := None; body := JStr "null" |}
                       (sample_world (Some {| enabled := true;
                                              channels := ["-1001"] |})))))
  = [500].
Proof.
  destruct (null_payload_answers_500 (engine := literal_engine)
              {| rawBody := None; body := JStr "null" |}
              (sample_world (Some {| enabled := true; channels := ["-1001"] |}))
              {| enabled := true; channels := ["-1001"] |}
              "null" eq_refl eq_refl eq_refl eq_refl) as (_ & Hresp).
  rewrite Hresp. reflexivity.
Defined.

Lemma non_mapping_payload_is_forwarded_raw_witness :
  List.length
    (outbox (snd (webhook (engine := sample_engine)
                    {| rawBody := Some "[]"; body := JArr [] |}
                    (sample_world (Some {| enabled := true;
                                           channels := ["-1001"] |})))))
  = 1.
Proof.
  destruct (non_mapping_payload_is_forwarded_raw (engine := sample_engine)
              {| rawBody := Some "[]"; body := JArr [] |}
              (sample_world (Some {| enabled := true; channels := ["-1001"] |}))
              {| enabled := true; channels := ["-1001"] |}
              (JArr []) eq_refl eq_refl eq_refl
              ltac:(discriminate) ltac:(intros kv rest; discriminate))
    as (Hout & _).
  rewrite Hout. reflexivity.
Defined.

(** * Further properties of the formatter *)

Section MoreFormat.

Context {engine : JsEngine}.

Lemma all_strings_assoc fields k v :
  all_strings fields = true -> assoc k fields = Some v -> exists s, v = JStr s.
Proof.
  unfold all_strings. induction fields as [|[k' v'] rest IH]; [discriminate|].
  simpl. intros Hall Hk. apply andb_prop in Hall. destruct Hall as [Hv Hrest].
  destruct (String.eqb k k').
  - injection Hk as <-. destruct v'; try discriminate. eauto.
  - now apply IH.
Qed.

Lemma or_else_string fields k b :
  all_strings fields = true -> (exists t, b = JStr t) ->
  exists u, or_else (prop (JObj fields) k) b = JStr u.
Proof.
  intros Hall [t ->]. unfold or_else, prop.
  destruct (assoc k fields) as [v|] eqn:Hk; [|eauto].
  destruct (all_strings_assoc _ _ _ Hall Hk) as [s ->].
  destruct (truthy (JStr s)); eauto.
Qed.

Lemma all_strings_printable fields :
  all_strings fields = true -> printable (JObj fields) = true.
Proof.
  intros Hall. unfold printable. cbn [forallb].
  unfold ticker_of, entryPrice_of, strategy_of, timeframe_of, contracts_of,
    sl_of, tp1_of.
  repeat match goal with
         | |- context [ToString (or_else (prop (JObj fields) ?k) ?b)] =>
             let u := fresh "u" in
             let Hu := fresh "Hu" in
             assert (Hu : exists u, or_else (prop (JObj fields) k) b = JStr u)
               by (repeat (apply or_else_string; [exact Hall|]); eauto);
             destruct Hu as [u ->]
         end.
  reflexivity.
Qed.

Lemma all_strings_direction_usable fields :
  all_strings fields = true -> direction_usable (JObj fields) = true.
Proof.
  intros Hall. unfold direction_usable, prop.
  destruct (assoc "direction" fields) as [v|] eqn:Hk; [|reflexivity].
  now destruct (all_strings_assoc _ _ _ Hall Hk) as [s ->].
Qed.

(** X14.  A payload whose fields are all strings, as the alert template
    of the README sends them, is never answered 500: whatever the
    strings, empty ones included, forwarding on gives the 200 with the
    channel count. *)
Theorem string_payloads_never_fail
  (req : Request) (w : World) (cfg : Config) (fields : list (string * JsVal)) :
  config_file w = Some cfg -> enabled cfg = true ->
  parsed_of req = (JObj fields, true) ->
  all_strings fields = true ->
  responses (snd (webhook req w))
  = (responses w ++ [sent_response (List.length (channels cfg))])%list.
Proof.
  intros Hcfg Hen Hparsed Hall.
  destruct (webhook_enabled_run req w cfg Hcfg Hen) as [c H].
  cbv zeta in H. rewrite H. clear H. rewrite Hparsed.
  cbn [snd responses set_console set_responses]. do 2 f_equal.
  destruct fields as [|kv rest]; [reflexivity|].
  rewrite format_step_object by discriminate.
  destruct (meaningful (JObj (kv :: rest))) eqn:Hm.
  - destruct (format_signal_meaningful _ Hm
                (all_strings_direction_usable _ Hall)
                (all_strings_printable _ Hall)) as [msg ->].
    reflexivity.
  - now rewrite (format_signal_not_meaningful _ Hm).
Qed.

Lemma toUpperCase_empty s : toUpperCase s = "" <-> s = "".
Proof. destruct s; simpl; split; intros H; try reflexivity; discriminate. Qed.

Lemma same_case_same_emptiness s s' :
  toUpperCase s = toUpperCase s' -> String.eqb s "" = String.eqb s' "".
Proof.
  intros Hup.
  destruct (String.eqb_spec s "") as [-> | Hs],
           (String.eqb_spec s' "") as [-> | Hs']; try reflexivity.
  - symmetry in Hup. now apply (proj1 (toUpperCase_empty s')) in Hup.
  - now apply (proj1 (toUpperCase_empty s)) in Hup.
Qed.

(** The direction as the heading line prints it. *)
Lemma printed_direction data data' s s' d d' :
  prop data "direction" = Some (JStr s) ->
  prop data' "direction" = Some (JStr s') ->
  toUpperCase s = toUpperCase s' ->
  direction_of data = inr d -> direction_of data' = inr d' ->
  toUpperCase d = toUpperCase d'.
Proof.
  intros Hs Hs' Hup. unfold direction_of. rewrite Hs, Hs'.
  assert (Ht : truthy (JStr s) = truthy (JStr s')).
  { simpl. f_equal. now apply same_case_same_emptiness. }
  rewrite <- Ht, <- Hup.
  destruct (truthy (JStr s)).
  - destruct (includes (toUpperCase s) "BUY");
      [|destruct (includes (toUpperCase s) "SELL")];
      intros Hd Hd'; injection Hd as <-; injection Hd' as <-;
      try reflexivity; exact Hup.
  - intros Hd Hd'. injection Hd as <-. injection Hd' as <-. reflexivity.
Qed.

(** X15.  The formatted message reads the direction only through its
    upper-case form: two payloads that agree on every other field, and
    whose direction strings differ in letter case only, get the same
    message. *)
Theorem direction_case_is_ignored (data data' : JsVal) (s s' : string) :
  (forall k, k <> "direction" -> prop data k = prop data' k) ->
  prop data "direction" = Some (JStr s) ->
  prop data' "direction" = Some (JStr s') ->
  toUpperCase s = toUpperCase s' ->
  format_signal data = format_signal data'.
Proof.
  intros Hsame Hs Hs' Hup.
  assert (Hd : exists d d', direction_of data = inr d
                            /\ direction_of data' = inr d').
  { unfold direction_of. rewrite Hs, Hs'.
    destruct (truthy (JStr s)), (truthy (JStr s')); eauto. }
  destruct Hd as (d & d' & Hd & Hd').
  pose proof (printed_direction _ _ _ _ _ _ Hs Hs' Hup Hd Hd') as Hprinted.
  assert (Hmean : meaningful data = meaningful data').
  { unfold meaningful. rewrite Hs, Hs'.
    rewrite (Hsame "ticker"), (Hsame "symbol") by discriminate.
    do 2 f_equal. simpl. f_equal. now apply same_case_same_emptiness. }
  unfold format_signal. rewrite Hd, Hd', <- Hmean. cbn [ebind].
  destruct (meaningful data); [|reflexivity].
  f_equal. unfold formatted_message.
  unfold ticker_of, entryPrice_of, strategy_of, timeframe_of, contracts_of,
    sl_of, tp1_of.
  rewrite Hprinted.
  rewrite (Hsame "ticker"), (Hsame "symbol"), (Hsame "entry_price"),
    (Hsame "price"), (Hsame "close"), (Hsame "strategy"),
    (Hsame "timeframe"), (Hsame "contracts"), (Hsame "sl"),
    (Hsame "stop_loss"), (Hsame "tp1"), (Hsame "take_profit")
    by discriminate.
  reflexivity.
Qed.

End MoreFormat.

Lemma string_payloads_never_fail_witness :
  map status
    (responses (snd (webhook (engine := sample_engine)
                       {| rawBody := None;
                          body := JObj [("ticker", JStr "");
                                        ("direction", JStr "sell");
                                        ("tp1", JStr "")] |}
                       (sample_world (Some {| enabled := true;
                                              channels := ["-1001"] |})))))
  = [200].
Proof.
  rewrite (string_payloads_never_fail (engine := sample_engine)
             {| rawBody := None;
                body := JObj [("ticker", JStr ""); ("direction", JStr "sell");
                              ("tp1", JStr "")] |}
             (sample_world (Some {| enabled := true; channels := ["-1001"] |}))
             {| enabled := true; channels := ["-1001"] |}
             [("ticker", JStr ""); ("direction", JStr "sell"); ("tp1", JStr "")]
             eq_refl eq_refl eq_refl eq_refl).
  reflexivity.
Defined.

Lemma direction_case_is_ignored_witness :
  format_signal (engine := sample_engine)
    (JObj [("ticker", JStr "BTCUSD"); ("direction", JStr "buy")])
  = format_signal (engine := sample_engine)
      (JObj [("direction", JStr "BUY"); ("ticker", JStr "BTCUSD")]).
Proof.
  apply (direction_case_is_ignored (engine := sample_engine)
           (JObj [("ticker", JStr "BTCUSD"); ("direction", JStr "buy")])
           (JObj [("direction", JStr "BUY"); ("ticker", JStr "BTCUSD")])
           "buy" "BUY").
  - intros k Hk. simpl.
    destruct (String.eqb_spec k "ticker") as [-> | Ht]; [reflexivity|].
    destruct (String.eqb_spec k "direction") as [-> | Hd];
      [now destruct Hk | reflexivity].
  - reflexivity.
  - reflexivity.
  - reflexivity.
Defined.

(** * The size of the raw-debug message *)

Lemma length_append (a b : string) :
  String.length (a ++ b) = String.length a + String.length b.
Proof. induction a as [|c a IH]; simpl; [reflexivity | now rewrite IH]. Qed.

(** X16.  The raw-debug message is the frame (heading and code fences)
    around at most 800 characters of the body: its length is the length
    of the frame plus [min 800 |raw|], however long the body is. *)
Theorem raw_debug_message_is_bounded (raw : string) :
  String.length (rawMessage_of raw)
  = String.length (rawMessage_of "") + Nat.min 800 (String.length raw)
  /\ String.length (rawMessage_of raw) <= String.length (rawMessage_of "") + 800.
Proof.
  assert (H : String.length (rawMessage_of raw)
              = String.length (rawMessage_of "")
                + Nat.min 800 (String.length raw)).
  { unfold rawMessage_of. rewrite !length_append.
    rewrite (proj2 (substring_is_truncation 800 raw)).
    change (substring 0 800 "") with "". cbn [String.length].
    lia. }
  split; [exact H|]. rewrite H.
  apply Nat.add_le_mono_l, Nat.le_min_l.
Qed.

(** * The first version of the endpoint *)

Section MoreLegacy.

Context {engine : JsEngine}.

Lemma legacy_send_run ch msg w :
  exists c, legacy_send ch msg w
            = (inr tt, set_console c (set_outbox (outbox w ++ [(ch, msg)]) w)).
Proof.
  apply guarded_send. intros e w0. eexists. reflexivity.
Qed.

(** The whole first-version handler when forwarding is on. *)
Lemma legacy_webhook_enabled_run req w cfg :
  config_file w = Some cfg -> enabled cfg = true ->
  exists c,
    legacy_webhook req w
    = match legacy_compose req with
      | inr msg =>
          (inr tt,
           set_console c
             (set_responses
                (responses w ++ [sent_response (List.length (channels cfg))])
                (set_outbox (outbox w ++ to_all (channels cfg) msg) w)))
      | inl e =>
          (inr tt,
           set_console c (set_responses (responses w ++ [error_response]) w))
      end.
Proof.
  intros Hcfg Hen. unfold legacy_webhook, legacy_webhook_try.
  destruct (legacy_compose req) as [e | msg] eqn:Hmsg.
  - eexists. erewrite try_err.
    2:{ rewrite (getConfig_bind _ _ _ Hcfg), Hen. cbn [negb].
        rewrite console_log_bind, lift_bind. reflexivity. }
    unfold legacy_webhook_catch, console_error.
    rewrite console_log_bind. unfold respond. reflexivity.
  - match goal with
    | |- exists c, try_catch ?m ?h w = _ =>
        assert (Hrun : exists c,
                   m w = (inr tt,
                          set_console c
                            (set_responses
                               (responses w
                                ++ [sent_response (List.length (channels cfg))])
                               (set_outbox
                                  (outbox w ++ to_all (channels cfg) msg) w))))
    end.
    { rewrite (getConfig_bind _ _ _ Hcfg), Hen. cbn [negb].
      rewrite console_log_bind, lift_bind.
      match goal with |- exists c, _ ?w0 = _ => set (w1 := w0) end.
      destruct (for_each_sends (fun ch => legacy_send ch msg) msg
                  (fun ch w' => legacy_send_run ch msg w') (channels cfg) w1)
        as [c1 H1].
      rewrite (bind_ok _ _ _ _ _ H1). exists c1. reflexivity. }
    destruct Hrun as [c Hrun]. exists c. now rewrite (try_ok _ _ _ _ _ Hrun).
Qed.

(** X17.  The first version, forwarding on: a request gets either one
    message for every channel, the same for all, and the 200, or no
    message at all and the 500; an exception never leaves some channels
    served, and no error notice is sent. *)
Theorem legacy_sends_to_all_or_none (req : Request) (w : World) (cfg : Config) :
  config_file w = Some cfg -> enabled cfg = true ->
  let r := legacy_webhook req w in
  fst r = inr tt
  /\ ((exists msg,
         legacy_compose req = inr msg
         /\ outbox (snd r) = (outbox w ++ to_all (channels cfg) msg)%list
         /\ responses (snd r)
            = (responses w
               ++ [sent_response (List.length (channels cfg))])%list)
      \/ (exists e,
            legacy_compose req = inl e
            /\ outbox (snd r) = outbox w
            /\ responses (snd r) = (responses w ++ [error_response])%list)).
Proof.
  intros Hcfg Hen r. subst r.
  destruct (legacy_webhook_enabled_run req w cfg Hcfg Hen) as [c H].
  rewrite H. destruct (legacy_compose req) as [e | msg].
  - split; [reflexivity|]. right. exists e. repeat split.
  - split; [reflexivity|]. left. exists msg. repeat split.
Qed.

(** X18.  The first version calls a payload incomplete when neither
    [ticker] nor [direction] holds a truthy value, a [symbol] or a price
    notwithstanding: every channel gets the notice quoting
    [JSON.stringify] of the payload in place of the signal. *)
Theorem legacy_reports_incomplete_alerts
  (req : Request) (w : World) (cfg : Config) :
  config_file w = Some cfg -> enabled cfg = true ->
  let data := or_else (Some (body req)) (JObj []) in
  legacy_incomplete data = true ->
  legacy_printable data = true ->
  outbox (snd (legacy_webhook req w))
  = (outbox w
     ++ to_all (channels cfg)
          ("⚠️ *Incomplete Alert Format*" ++ nl ++ "Raw: `"
             ++ JSON_stringify data ++ "`"))%list.
Proof.
  intros Hcfg Hen data Hinc Hp.
  destruct (legacy_webhook_enabled_run req w cfg Hcfg Hen) as [c H].
  rewrite H. clear H.
  assert (Hmsg : legacy_compose req = inr (legacy_notice data)).
  { unfold legacy_compose. fold data. rewrite Hinc.
    assert (Hd : direction_of data = inr "Signal").
    { unfold legacy_incomplete in Hinc. apply andb_prop in Hinc.
      destruct Hinc as [_ Hdir]. apply negb_true_iff in Hdir.
      unfold direction_of. destruct (prop data "direction") as [d|];
        [|reflexivity].
      simpl in Hdir. now rewrite Hdir. }
    rewrite Hd. cbn [ebind].
    unfold legacy_printable in Hp. cbn [forallb] in Hp.
    repeat (apply andb_prop in Hp; let P := fresh "P" in destruct Hp as [P Hp]).
    unfold legacy_message.
    destruct (ToString (ticker_of data)) as [s1|] eqn:E1; [|discriminate].
    destruct (ToString (legacy_entryPrice_of data)) as [s2|] eqn:E2;
      [|discriminate].
    destruct (ToString (sl_of data)) as [s3|] eqn:E3; [|discriminate].
    destruct (ToString (tp1_of data)) as [s4|] eqn:E4; [|discriminate].
    unfold show at 1 2. rewrite E1, E2. cbn [ebind].
    match goal with
    | |- context [optional_line (sl_of data) ?b ?a ?m] =>
        destruct (optional_line_printable _ b a m _ E3) as [m1 ->]
    end. cbn [ebind].
    match goal with
    | |- context [optional_line (tp1_of data) ?b ?a ?m] =>
        destruct (optional_line_printable _ b a m _ E4) as [m2 ->]
    end.
    reflexivity. }
  rewrite Hmsg. reflexivity.
Qed.

(** X19.  The first version, a truthy [direction] that is not a string:
    the exception comes before any send, so no channel gets anything,
    not even an error notice, and the answer is the 500. *)
Theorem legacy_non_string_direction_sends_nothing
  (req : Request) (w : World) (cfg : Config)
  (fields : list (string * JsVal)) (d : JsVal) :
  config_file w = Some cfg -> enabled cfg = true ->
  body req = JObj fields ->
  assoc "direction" fields = Some d -> truthy d = true ->
  (forall s, d <> JStr s) ->
  let r := legacy_webhook req w in
  outbox (snd r) = outbox w
  /\ responses (snd r) = (responses w ++ [error_response])%list.
Proof.
  intros Hcfg Hen Hbody Hd Ht Hs r. subst r.
  destruct (legacy_webhook_enabled_run req w cfg Hcfg Hen) as [c H].
  rewrite H. clear H.
  unfold legacy_compose. rewrite Hbody. cbn [or_else truthy].
  rewrite (direction_of_throws (JObj fields) d Hd Ht Hs). cbn [ebind].
  split; reflexivity.
Qed.

End MoreLegacy.

Lemma legacy_sends_to_all_or_none_witness :
  map fst
    (outbox (snd (legacy_webhook (engine := sample_engine)
                    {| rawBody := None;
                       body := JObj [("ticker", JStr "BTCUSD");
                                     ("direction", JStr "buy")] |}
                    (sample_world (Some {| enabled := true;
                                           channels := ["-1001"; "-1002"] |})))))
  = ["-1001"; "-1002"].
Proof.
  destruct (legacy_sends_to_all_or_none (engine := sample_engine)
              {| rawBody := None;
                 body := JObj [("ticker", JStr "BTCUSD");
                               ("direction", JStr "buy")] |}
              (sample_world (Some {| enabled := true;
                                     channels := ["-1001"; "-1002"] |}))
              {| enabled := true; channels := ["-1001"; "-1002"] |}
              eq_refl eq_refl) as [_ [(msg & _ & Hout & _) | (e & He & _)]].
  - cbv zeta in Hout. rewrite Hout. reflexivity.
  - discriminate He.
Defined.

Lemma legacy_reports_incomplete_alerts_witness :
  outbox (snd (legacy_webhook (engine := sample_engine)
                 {| rawBody := None;
                    body := JObj [("symbol", JStr "ETHUSD");
                                  ("price", JStr "3000")] |}
                 (sample_world (Some {| enabled := true;
                                        channels := ["-1001"] |}))))
  = [("-1001", "⚠️ *Incomplete Alert Format*" ++ nl ++ "Raw: `{}`")].
Proof.
  rewrite (legacy_reports_incomplete_alerts (engine := sample_engine)
             {| rawBody := None;
                body := JObj [("symbol", JStr "ETHUSD");
                              ("price", JStr "3000")] |}
             (sample_world (Some {| enabled := true; channels := ["-1001"] |}))
             {| enabled := true; channels := ["-1001"] |}
             eq_refl eq_refl eq_refl eq_refl).
  reflexivity.
Defined.

Lemma legacy_non_string_direction_sends_nothing_witness :
  outbox (snd (legacy_webhook (engine := sample_engine)
                 {| rawBody := None;
                    body := JObj [("direction", JBool true)] |}
                 (sample_world (Some {| enabled := true;
                                        channels := ["-1001"] |}))))
  = [].
Proof.
  destruct (legacy_non_string_direction_sends_nothing (engine := sample_engine)
              {| rawBody := None; body := JObj [("direction", JBool true)] |}
              (sample_world (Some {| enabled := true; channels := ["-1001"] |}))
              {| enabled := true; channels := ["-1001"] |}
              [("direction", JBool true)] (JBool true)
              eq_refl eq_refl eq_refl eq_refl eq_refl
              ltac:(intros s; discriminate)) as [Hout _].
  exact Hout.
Defined.

(** * What the commands never do, and how they fail *)

Section CommandFailures.

Variable env : option string.

(** X20.  No command, from anybody, in any world, sends a message to a
    channel or answers an HTTP request; it adds at most one reply. *)
Theorem commands_only_reply (c : Command) (ctx : Ctx) (w : World) :
  let r := bot_command env c ctx w in
  outbox (snd r) = outbox w
  /\ responses (snd r) = responses w
  /\ (replies (snd r) = replies w
      \/ exists rep, replies (snd r) = (replies w ++ [rep])%list
                     /\ reply_ctx rep = ctx).
Proof.
  cbv zeta. unfold bot_command, isAdmin.
  destruct (array_includes (ADMIN_CHAT_IDS env) (of_Z (from_id ctx))).
  2:{ repeat split. right. eexists. split; reflexivity. }
  destruct (config_file w) as [cfg|] eqn:Hcfg.
  2:{ destruct c; unfold handler, on_handler, off_handler, addchannel_handler,
        removechannel_handler, list_handler;
        try (destruct (Nat.ltb _ 2);
             [repeat split; right; eexists; split; reflexivity|]);
        rewrite (getConfig_fails _ _ Hcfg); repeat split; now left. }
  destruct (writable w) eqn:Hw; destruct c;
    unfold handler, on_handler, off_handler, addchannel_handler,
      removechannel_handler, list_handler;
    try (destruct (Nat.ltb _ 2);
         [repeat split; right; eexists; split; reflexivity|]);
    rewrite (getConfig_bind _ _ _ Hcfg);
    try (destruct (array_includes (channels cfg) _); cbn [negb]);
    try rewrite (saveConfig_bind _ _ _ Hw);
    try rewrite (saveConfig_fails _ _ _ Hw);
    repeat split;
    try (now left);
    right; eexists; split; reflexivity.
Qed.

(** X21.  A command of an admin that gets as far as reading
    [config.json] while it cannot be read ends with the file system's
    error and changes nothing: no reply, no write. *)
Theorem commands_throw_when_config_is_unreadable
  (c : Command) (ctx : Ctx) (w : World) :
  authorized env ctx = true ->
  config_file w = None ->
  (c = AddChannel \/ c = RemoveChannel -> exists id, argument ctx = Some id) ->
  bot_command env c ctx w = (inl (SystemError (io_error w)), w).
Proof.
  intros Hadm Hcfg Harg.
  unfold bot_command, isAdmin. unfold authorized in Hadm. rewrite Hadm.
  destruct c; unfold handler, on_handler, off_handler, addchannel_handler,
    removechannel_handler, list_handler.
  - apply (getConfig_fails _ _ Hcfg).
  - apply (getConfig_fails _ _ Hcfg).
  - destruct (Harg (or_introl eq_refl)) as [id Hid].
    destruct (argument_spec _ _ Hid) as [-> _].
    apply (getConfig_fails _ _ Hcfg).
  - destruct (Harg (or_intror eq_refl)) as [id Hid].
    destruct (argument_spec _ _ Hid) as [-> _].
    apply (getConfig_fails _ _ Hcfg).
  - apply (getConfig_fails _ _ Hcfg).
Qed.

(** X22.  While [config.json] can be read but not written, [/on], [/off]
    and [/removechannel id] from an admin end with the file system's
    error, without a reply and with the stored configuration as it was;
    so does [/addchannel id] for an [id] that is not in the list, while
    for one that is in the list nothing is written and the 'already in
    list' reply goes out. *)
Theorem commands_throw_when_config_is_read_only
  (c : Command) (ctx : Ctx) (w : World) (cfg : Config) :
  authorized env ctx = true ->
  config_file w = Some cfg -> writable w = false ->
  (c = On \/ c = Off
   \/ (c = RemoveChannel /\ exists id, argument ctx = Some id)
   \/ (c = AddChannel
       /\ exists id, argument ctx = Some id /\ ~ In id (channels cfg)) ->
   bot_command env c ctx w = (inl (SystemError (io_error w)), w))
  /\ (c = AddChannel ->
      forall id, argument ctx = Some id -> In id (channels cfg) ->
      bot_command env c ctx w
      = (inr tt,
         set_replies
           (replies w ++ [Build_Reply ctx false "ℹ️ Channel already in list."])
           w)).
Proof.
  intros Hadm Hcfg Hw.
  unfold bot_command, isAdmin. unfold authorized in Hadm. rewrite Hadm.
  split.
  - intros [-> | [-> | [[-> [id Hid]] | [-> (id & Hid & Hnot)]]]];
      unfold handler, on_handler, off_handler, addchannel_handler,
        removechannel_handler.
    + rewrite (getConfig_bind _ _ _ Hcfg). apply (saveConfig_fails _ _ _ Hw).
    + rewrite (getConfig_bind _ _ _ Hcfg). apply (saveConfig_fails _ _ _ Hw).
    + destruct (argument_spec _ _ Hid) as [-> _].
      rewrite (getConfig_bind _ _ _ Hcfg). apply (saveConfig_fails _ _ _ Hw).
    + destruct (argument_spec _ _ Hid) as [-> ->].
      rewrite (getConfig_bind _ _ _ Hcfg).
      apply array_includes_not_In in Hnot. rewrite Hnot. cbn [negb].
      apply (saveConfig_fails _ _ _ Hw).
  - intros -> id Hid Hin. unfold handler, addchannel_handler.
    destruct (argument_spec _ _ Hid) as [-> ->].
    rewrite (getConfig_bind _ _ _ Hcfg).
    apply array_includes_In in Hin. rewrite Hin. reflexivity.
Qed.

End CommandFailures.

Lemma commands_throw_when_config_is_unreadable_witness :
  bot_command (Some "12, 13") RemoveChannel
    {| from_id := 12; text := "/removechannel -1001" |} (sample_world None)
  = (inl (SystemError "ENOENT"), sample_world None).
Proof.
  apply (commands_throw_when_config_is_unreadable (Some "12, 13") RemoveChannel
           {| from_id := 12; text := "/removechannel -1001" |}
           (sample_world None) eq_refl eq_refl).
  intros _. exists "-1001". reflexivity.
Defined.

Lemma commands_throw_when_config_is_read_only_witness :
  let w := {| config_file := Some {| enabled := true; channels := ["-1001"] |};
              writable := false; io_error := "EACCES";
              telegram := fun _ => None; outbox := []; replies := [];
              responses := []; console := [] |} in
  fst (bot_command (Some "12, 13") Off {| from_id := 12; text := "/off" |} w)
  = inl (SystemError "EACCES").
Proof.
  cbv zeta.
  rewrite (proj1 (commands_throw_when_config_is_read_only (Some "12, 13") Off
                    {| from_id := 12; text := "/off" |}
                    {| config_file :=
                         Some {| enabled := true; channels := ["-1001"] |};
                       writable := false; io_error := "EACCES";
                       telegram := fun _ => None; outbox := []; replies := [];
                       responses := []; console := [] |}
                    {| enabled := true; channels := ["-1001"] |}
                    eq_refl eq_refl eq_refl)
             (or_intror (or_introl eq_refl))).
  reflexivity.
Defined.

(** * A field that cannot be printed *)

Section Unprintable.

Context {engine : JsEngine}.


End Unprintable.

